(** * smartschool.agenda: the agenda adapters and their fetch/cache pipeline

    A shallow embedding of [smartschool/agenda.py] (the three endpoint
    adapters [SmartschoolLessons], [SmartschoolHours] and
    [SmartschoolMomentInfos]) and of the cache reset hook of
    [tests/conftest.py].  The base class [SmartschoolXML] that the adapters
    inherit from lives in [smartschool/_xml_interface.py]; its pipeline
    (parse, map, memoize) is modelled separately, from the written
    specification, in the section [Pipeline] below. *)

From Stdlib Require Import ZArith Ascii String DecimalString.
From stdpp Require Import gmap strings list fin_maps.

(** ** Python values *)

(** The values that flow through the adapters: [None], [str], [int], [list]
    and [dict] with string keys, and [bool].  A [str] is a [string] whose
    characters stand for code points below 256; an [int] is unbounded, hence
    [Z]; [PInt] is an [int] that is not a [bool], [True] and [False] being
    [PBool]. *)
#[warnings="-register-all"]
Inductive pyval : Type :=
| PNone
| PStr (s : string)
| PInt (z : Z)
| PList (l : list pyval)
| PDict (d : gmap string pyval)
| PBool (b : bool).

(** A [dict] as produced from one selected XML node. *)
Abbreviation RawElement := (gmap string pyval).

(** [x is None] *)
Definition is_None (v : pyval) : bool :=
  match v with PNone => true | _ => false end.

(** [isinstance(x, list)] *)
Definition isinstance_list (v : pyval) : bool :=
  match v with PList _ => true | _ => false end.

(** The record types of [smartschool/objects.py] that the adapters
    instantiate. *)
Inductive TargetType := AgendaLesson | AgendaHour | AgendaMomentInfo.

(** ** Exceptions and results *)

(** [ValueError], [KeyError], [TypeError] and [AttributeError] are the
    built-in exceptions the code of [agenda.py] raises or triggers;
    [MalformedResponse] and [MappingError] are the two errors of the
    pipeline; [SessionError] stands for whatever the session raises. *)
Inductive exn :=
| ValueError (msg : string)
| KeyError (key : string)
| TypeError
| AttributeError (name : string)
| MalformedResponse
| MappingError (field : string) (target : TargetType)
| SessionError (msg : string).

Inductive result (A : Type) :=
| Ok (a : A)
| Raise (e : exn).
Arguments Ok {A} a.
Arguments Raise {A} e.

#[global] Instance result_ret : MRet result := λ A a, Ok a.
#[global] Instance result_bind : MBind result := λ A B f r,
  match r with Ok a => f a | Raise e => Raise e end.

(** [d[k]] on a [dict]. *)
Definition dict_getitem (d : gmap string pyval) (k : string) : result pyval :=
  match d !! k with
  | Some v => Ok v
  | None => Raise (KeyError k)
  end.

(** [v[k]] with a [str] subscript [k], on any value: only a [dict] can be
    indexed by a string; [None], an [int], a [str] and a [list] raise
    [TypeError]. *)
Definition subscript (v : pyval) (k : string) : result pyval :=
  match v with
  | PDict d => dict_getitem d k
  | _ => Raise TypeError
  end.

(** ** Strings: [str.strip] and [str(...)] *)

(** [c.isspace()] for the code points below 256: TAB, LF, VT, FF, CR, the
    separators FS, GS, RS, US, the space, NEL and the no-break space. *)
Definition isspace (c : ascii) : bool :=
  let n := nat_of_ascii c in
  (((9 <=? n) && (n <=? 13)) || ((28 <=? n) && (n <=? 32))
   || (n =? 133) || (n =? 160))%nat.

Fixpoint lstrip (s : string) : string :=
  match s with
  | EmptyString => EmptyString
  | String c s' => if isspace c then lstrip s' else s
  end.

Fixpoint rstrip (s : string) : string :=
  match s with
  | EmptyString => EmptyString
  | String c s' =>
      match rstrip s' with
      | EmptyString => if isspace c then EmptyString else String c EmptyString
      | r => String c r
      end
  end.

(** [s.strip()]: leading and trailing whitespace removed. *)
Definition strip (s : string) : string := rstrip (lstrip s).

(** A string made of whitespace only (the empty string included). *)
Fixpoint whitespace_only (s : string) : bool :=
  match s with
  | EmptyString => true
  | String c s' => isspace c && whitespace_only s'
  end.

(** [not s] for a [str]: true exactly on the empty string. *)
Definition str_falsy (s : string) : bool :=
  match s with EmptyString => true | _ => false end.

(** The decimal numeral of [z], with a sign when negative. *)
Definition decimal_of_int (z : Z) : string := NilZero.string_of_int (Z.to_int z).

(** The digits of that numeral, the sign left out. *)
Definition decimal_digits (z : Z) : string :=
  match Z.to_int z with
  | Decimal.Pos d | Decimal.Neg d => NilZero.string_of_uint d
  end.

(** [sys.get_int_max_str_digits()], at the interpreter's default. *)
Definition int_max_str_digits : nat := 4300.

(** The message of the [ValueError] that the interpreter raises when an
    [int] has more digits than that. *)
Definition int_max_str_digits_error : string :=
  "Exceeds the limit (4300 digits) for integer string conversion; use sys.set_int_max_str_digits() to increase the limit".

(** [str(z)] for an [int]: the decimal numeral, or [ValueError] when the
    numeral has more digits than the limit (the sign is not counted). *)
Definition str_of_int (z : Z) : result string :=
  if (int_max_str_digits <? String.length (decimal_digits z))%nat
  then Raise (ValueError int_max_str_digits_error)
  else Ok (decimal_of_int z).

(** [str(b)] for a [bool]. *)
Definition str_of_bool (b : bool) : string := if b then "True" else "False".

(** ** SmartschoolLessons *)

Module SmartschoolLessons.

Definition _xpath : string := ".//lesson".

Definition _object_to_instantiate : TargetType := AgendaLesson.

Definition _subsystem : string := "agenda".

Definition _action : string := "get lessons".

(** [now] is [int(time.time())], the reading of the wall clock. The dict
    literal keeps its insertion order. *)
Definition _params (now : Z) : list (string * pyval) :=
  let in_5_days := (now + 5 * 24 * 3600)%Z in
  [ ("startDateTimestamp", PInt now);
    ("endDateTimestamp", PInt in_5_days);
    ("filterType", PStr "false");
    ("filterID", PStr "false");
    ("gridType", PStr "1");
    ("classID", PStr "0");
    ("endDateTimestampOld", PInt in_5_days);
    ("forcedTeacher", PStr "0");
    ("forcedClass", PStr "0");
    ("forcedClassroom", PStr "0");
    ("assignmentTypeID", PStr "1") ].

End SmartschoolLessons.

(** ** SmartschoolMomentInfos *)

Module SmartschoolMomentInfos.

(** An instance: the only attribute is the identifier bound by [__init__]. *)
Record t := Build { _moment_id : string }.

Section Init.

(** [repr] of a [list] or a [dict], a Python built-in; it may raise, as
    [str] of an [int] may. *)
Variable py_repr : pyval → result string.

(** [str(v)] *)
Definition py_str (v : pyval) : result string :=
  match v with
  | PStr s => Ok s
  | PInt z => str_of_int z
  | PBool b => Ok (str_of_bool b)
  | PNone => Ok "None"
  | PList _ | PDict _ => py_repr v
  end.

Definition __init__ (moment_id : pyval) : result t :=
  moment_id ← py_str moment_id;
  let moment_id := strip moment_id in
  if str_falsy moment_id then Raise (ValueError "Please provide a valid MomentID")
  else Ok {| _moment_id := moment_id |}.

End Init.

Definition _xpath : string := ".//class".

Definition _object_to_instantiate : TargetType := AgendaMomentInfo.

Definition _subsystem : string := "agenda".

Definition _action : string := "get moment info".

Definition _params (self : t) : list (string * pyval) :=
  [ ("momentID", PStr (_moment_id self));
    ("dateID", PStr "");
    ("assignmentIDs", PStr "");
    ("activityID", PStr "0") ].

(** The hook mutates [element] in place and returns nothing: here it
    returns the element as it is after the call. *)
Definition _post_process_element (element : RawElement) : result RawElement :=
  assignments ← dict_getitem element "assignments";
  if is_None assignments then
    Ok (<["assignments" := PList []]> element)
  else
    assignment ← subscript assignments "assignment";
    if isinstance_list assignment then
      Ok (<["assignments" := assignment]> element)
    else
      Ok (<["assignments" := PList [assignment]]> element).

End SmartschoolMomentInfos.

(** [d[k]] on a dict literal kept as an association list. *)
Fixpoint params_get (params : list (string * pyval)) (k : string) : option pyval :=
  match params with
  | [] => None
  | (k', v) :: rest => if String.eqb k' k then Some v else params_get rest k
  end.

(** ** Typed records *)

(** An instance of one of the record types: its class and its attributes. *)
Record TypedRecord := Instance {
  rec_type : TargetType;
  rec_attrs : gmap string pyval
}.

(** [obj.name] *)
Definition getattr (obj : TypedRecord) (name : string) : result pyval :=
  match rec_attrs obj !! name with
  | Some v => Ok v
  | None => Raise (AttributeError name)
  end.

(** [v == s] where [s] is a [str]: only an equal [str] compares equal. *)
Definition py_eq_str (v : pyval) (s : string) : bool :=
  match v with
  | PStr s' => String.eqb s' s
  | _ => false
  end.

(** ** The world the adapters run in *)

(** One request handed to the session: subsystem, action and parameters. *)
Record Request := {
  req_subsystem : string;
  req_action : string;
  req_params : list (string * pyval)
}.

Abbreviation loc := nat.
Abbreviation Cache := (gmap string (list TypedRecord)).
Abbreviation Heap := (gmap loc Cache).

(** The heap of [dict] objects used as caches, the requests posted so far
    (oldest first) and the wall clock, in whole seconds. *)
Record World := {
  heap : Heap;
  requests : list Request;
  clock : Z
}.

(** Computations that read and change the world and may raise: what was
    changed before an exception is raised stays changed. *)
Definition M (A : Type) : Type := World → result A * World.

#[global] Instance M_ret : MRet M := λ A a w, (Ok a, w).
#[global] Instance M_bind : MBind M := λ A B f m w,
  match m w with
  | (Ok a, w') => f a w'
  | (Raise e, w') => (Raise e, w')
  end.

(** A pure computation that may raise, run inside [M]. *)
Definition lift {A} (r : result A) : M A := λ w, (r, w).

(** [int(time.time())] *)
Definition time : M Z := λ w, (Ok (clock w), w).

(** ** SmartschoolHours *)

Module SmartschoolHours.

Definition _xpath : string := ".//hour".

Definition _object_to_instantiate : TargetType := AgendaHour.

Definition _subsystem : string := "grid".

Definition _action : string := "get hours".

(** [now] is [int(time.time())]. *)
Definition _params (now : Z) : list (string * pyval) :=
  [ ("date", PInt now) ].

Section Methods.

(** The type of [date_to_use] and the inherited method [self._xml]. *)
Variable date : Type.
Variable _xml : option date → M (list TypedRecord).

(** The [for] loop of [search_by_hourId] over the sequence [_xml] returned,
    and the [raise] after it. *)
Fixpoint search_loop (hours : list TypedRecord) (hourId : string) : result TypedRecord :=
  match hours with
  | [] => Raise (ValueError ("Couldn't find " +:+ hourId))
  | hour :: rest =>
      hourID ← getattr hour "hourID";
      if py_eq_str hourID hourId then Ok hour else search_loop rest hourId
  end.

Definition search_by_hourId (hourId : string) (date_to_use : option date) : M TypedRecord :=
  hours ← _xml date_to_use;
  lift (search_loop hours hourId).

End Methods.

End SmartschoolHours.

(** ** The adapters as one family *)

(** An adapter instance. *)
Inductive Adapter :=
| Lessons
| Hours
| MomentInfos (self : SmartschoolMomentInfos.t).

(** The three adapter classes of the module. *)
Inductive AdapterClass := LessonsClass | HoursClass | MomentInfosClass.

#[global] Instance AdapterClass_eq_dec : EqDecision AdapterClass.
Proof. solve_decision. Defined.

Definition class_of (self : Adapter) : AdapterClass :=
  match self with
  | Lessons => LessonsClass
  | Hours => HoursClass
  | MomentInfos _ => MomentInfosClass
  end.

Definition _xpath (self : Adapter) : string :=
  match self with
  | Lessons => SmartschoolLessons._xpath
  | Hours => SmartschoolHours._xpath
  | MomentInfos _ => SmartschoolMomentInfos._xpath
  end.

Definition _object_to_instantiate (self : Adapter) : TargetType :=
  match self with
  | Lessons => SmartschoolLessons._object_to_instantiate
  | Hours => SmartschoolHours._object_to_instantiate
  | MomentInfos _ => SmartschoolMomentInfos._object_to_instantiate
  end.

Definition _subsystem (self : Adapter) : string :=
  match self with
  | Lessons => SmartschoolLessons._subsystem
  | Hours => SmartschoolHours._subsystem
  | MomentInfos _ => SmartschoolMomentInfos._subsystem
  end.

Definition _action (self : Adapter) : string :=
  match self with
  | Lessons => SmartschoolLessons._action
  | Hours => SmartschoolHours._action
  | MomentInfos _ => SmartschoolMomentInfos._action
  end.

(** The [_params] property: the lessons and hours adapters read the clock. *)
Definition _params (self : Adapter) : M (list (string * pyval)) :=
  match self with
  | Lessons => now ← time; mret (SmartschoolLessons._params now)
  | Hours => now ← time; mret (SmartschoolHours._params now)
  | MomentInfos self => mret (SmartschoolMomentInfos._params self)
  end.

(** ** The class-level caches *)

(** [{}]: a new, empty [dict] at an address not yet in use. *)
Definition new_dict (h : Heap) : loc * Heap :=
  let l := fresh (dom h) in (l, <[l := ∅]> h).

(** Importing [smartschool.agenda] runs the three class bodies in order;
    each evaluates its own [cache: ClassVar[...] = {}].  The result is the
    address bound to [cache] in each class, and the heap. *)
Definition import_agenda (h : Heap) : (AdapterClass → loc) * Heap :=
  let '(lessons_cache, h1) := new_dict h in
  let '(hours_cache, h2) := new_dict h1 in
  let '(moment_infos_cache, h3) := new_dict h2 in
  (λ c, match c with
        | LessonsClass => lessons_cache
        | HoursClass => hours_cache
        | MomentInfosClass => moment_infos_cache
        end, h3).

(** [cls.cache], as an address. *)
Definition cache (cls : AdapterClass) : loc := (import_agenda ∅).1 cls.

(** The world right after the import: three empty caches, nothing posted. *)
Definition initial_world (now : Z) : World :=
  {| heap := (import_agenda ∅).2; requests := []; clock := now |}.

(** The [dict] that [cls.cache] refers to. *)
Definition cache_contents (cls : AdapterClass) (w : World) : Cache :=
  heap w !!! cache cls.

(** [cls.cache.get(key)] *)
Definition cache_get (cls : AdapterClass) (key : string) : M (option (list TypedRecord)) :=
  λ w, (Ok (cache_contents cls w !! key), w).

(** [cls.cache[key] = value] *)
Definition cache_setitem (cls : AdapterClass) (key : string) (value : list TypedRecord) : M unit :=
  λ w, (Ok (), {| heap := <[cache cls := <[key := value]> (cache_contents cls w)]> (heap w);
                  requests := requests w; clock := clock w |}).

(** [cls.cache.clear()] *)
Definition cache_clear (cls : AdapterClass) : M unit :=
  λ w, (Ok (), {| heap := <[cache cls := ∅]> (heap w);
                  requests := requests w; clock := clock w |}).

(** The classes of [vars(smartschool.agenda)] that have a [cache]. *)
Definition agenda_classes : list AdapterClass :=
  [LessonsClass; HoursClass; MomentInfosClass].

(** The [for] loop of the fixture [_clear_caches_from_agenda] of
    [tests/conftest.py]. *)
Fixpoint clear_each (classes : list AdapterClass) : M unit :=
  match classes with
  | [] => mret ()
  | v :: rest => _ ← cache_clear v; clear_each rest
  end.

Definition _clear_caches_from_agenda : M unit := clear_each agenda_classes.

(** ** The pipeline of the base class *)

(** What the pipeline takes from outside [agenda.py]. *)
Class Collaborators := {
  (** The XML library: the type of parsed nodes, the parser ([None] when the
      text is not XML), the selection of nodes by a path expression, and the
      conversion of a node into a mapping. *)
  Element : Type;
  fromstring : string → option Element;
  findall : Element → string → list Element;
  xml_to_dict : Element → RawElement;
  (** The session: the answer to a request, given the requests posted
      before it. *)
  session_post : list Request → Request → result string;
  (** The fields each record type declares. *)
  declared_fields : TargetType → list string;
  (** The cache key used when the caller names none, given the clock. *)
  default_key : Adapter → Z → string
}.

Section Pipeline.

Context `{Collaborators}.

(** Modelled from the spec: the Session Provider boundary [post(subsystem,
    action, params) -> rawText]; every call is one network call, recorded
    in the world whether it answers or raises. *)
Definition post (subsystem action : string) (params : list (string * pyval)) : M string :=
  λ w, let req := {| req_subsystem := subsystem; req_action := action;
                     req_params := params |} in
       (session_post (requests w) req,
        {| heap := heap w; requests := requests w ++ [req]; clock := clock w |}).

(** Modelled from the spec: the Response Parser [parse(rawXml, selector)]:
    the converted form of every selected node, in document order; an empty
    sequence when no node matches; [MalformedResponse] when the text is not
    parseable as XML. *)
Definition parse (rawXml selector : string) : result (list RawElement) :=
  match fromstring rawXml with
  | None => Raise MalformedResponse
  | Some root => Ok (xml_to_dict <$> findall root selector)
  end.

(** Modelled from the spec: the default post-processing hook of the
    adapter protocol, a no-op. *)
Definition default_post_process_element (element : RawElement) : result RawElement :=
  Ok element.

(** The hook of each adapter: only the moment-info adapter overrides it. *)
Definition _post_process_element (self : Adapter) : RawElement → result RawElement :=
  match self with
  | Lessons | Hours => default_post_process_element
  | MomentInfos _ => SmartschoolMomentInfos._post_process_element
  end.

(** Modelled from the spec: construction of one record by binding the
    mapping's keys to the declared fields of the target type; keys that are
    not declared are ignored, and the first declared field that is missing
    fails with [MappingError], naming the field and the type. *)
Definition instantiate (targetType : TargetType) (element : RawElement) : result TypedRecord :=
  match List.find (λ f, bool_decide (element !! f = None)) (declared_fields targetType) with
  | Some f => Raise (MappingError f targetType)
  | None =>
      Ok {| rec_type := targetType;
            rec_attrs := filter (λ kv, kv.1 ∈ declared_fields targetType) element |}
  end.

(** Modelled from the spec: the Record Mapper [map(rawElements, targetType,
    postProcess)]: for each element the hook first, then the construction;
    input order is kept and the first error ends the mapping. *)
Fixpoint map_records (rawElements : list RawElement) (targetType : TargetType)
    (postProcess : RawElement → result RawElement) : result (list TypedRecord) :=
  match rawElements with
  | [] => Ok []
  | element :: rest =>
      element' ← postProcess element;
      record ← instantiate targetType element';
      records ← map_records rest targetType postProcess;
      Ok (record :: records)
  end.

(** Modelled from the spec: the Cache Layer [getOrFetch(adapterClass, key,
    fetchFn)]: on a hit the stored sequence, without calling [fetchFn]; on a
    miss one call of [fetchFn], whose result is stored under the key and
    returned. *)
Definition getOrFetch (adapterClass : AdapterClass) (key : string)
    (fetchFn : M (list TypedRecord)) : M (list TypedRecord) :=
  cached ← cache_get adapterClass key;
  match cached with
  | Some records => mret records
  | None =>
      records ← fetchFn;
      _ ← cache_setitem adapterClass key records;
      mret records
  end.

(** Modelled from the spec: the closure [fetch] hands to the Cache Layer:
    build the parameters, post them through the session, parse the answer,
    map the elements. *)
Definition fetchFn (self : Adapter) : M (list TypedRecord) :=
  params ← _params self;
  rawText ← post (_subsystem self) (_action self) params;
  elements ← lift (parse rawText (_xpath self));
  lift (map_records elements (_object_to_instantiate self) (_post_process_element self)).

(** Modelled from the spec: key resolution, an explicit key as it is, and
    the adapter's default otherwise. *)
Definition resolve_key (self : Adapter) (key : option string) : M string :=
  match key with
  | Some k => mret k
  | None => now ← time; mret (default_key self now)
  end.

(** Modelled from the spec: [fetch(key?)] of the adapter protocol, the
    method [self._xml(date_to_use)] that [agenda.py] calls: resolve the key
    and delegate to the Cache Layer. *)
Definition _xml (self : Adapter) (key : option string) : M (list TypedRecord) :=
  k ← resolve_key self key;
  getOrFetch (class_of self) k (fetchFn self).

(** What a caller may do between two fetches. *)
Inductive op :=
| OpFetch (self : Adapter) (key : option string)
| OpClock (now : Z)
| OpClear.

Definition is_clear (o : op) : bool :=
  match o with OpClear => true | _ => false end.

Definition set_clock (now : Z) (w : World) : World :=
  {| heap := heap w; requests := requests w; clock := now |}.

Definition step (o : op) (w : World) : World :=
  match o with
  | OpFetch self key => (_xml self key w).2
  | OpClock now => set_clock now w
  | OpClear => (_clear_caches_from_agenda w).2
  end.

Fixpoint run (ops : list op) (w : World) : World :=
  match ops with
  | [] => w
  | o :: rest => run rest (step o w)
  end.

(** The request an adapter builds when the clock reads what it does in [w]. *)
Definition request_of (self : Adapter) (w : World) : Request :=
  {| req_subsystem := _subsystem self; req_action := _action self;
     req_params := match _params self w with
                   | (Ok params, _) => params
                   | (Raise _, _) => []
                   end |}.

(** The fetch of [self] in [w], were it to go to the network, fails with
    [e]: the session raises [e], or it answers and the parser raises [e], or
    the parser returns and the mapper raises [e]. *)
Definition stage_raises (self : Adapter) (w : World) (e : exn) : Prop :=
  session_post (requests w) (request_of self w) = Raise e ∨
  ∃ rawText, session_post (requests w) (request_of self w) = Ok rawText ∧
    (parse rawText (_xpath self) = Raise e ∨
     ∃ elements, parse rawText (_xpath self) = Ok elements ∧
       map_records elements (_object_to_instantiate self) (_post_process_element self)
       = Raise e).

End Pipeline.

(** Operations on the caches alone. *)
Inductive cache_op :=
| CacheStore (cls : AdapterClass) (key : string) (value : list TypedRecord)
| CacheClear (cls : AdapterClass).

Definition cache_op_class (o : cache_op) : AdapterClass :=
  match o with
  | CacheStore cls _ _ => cls
  | CacheClear cls => cls
  end.

Definition cache_step (o : cache_op) (w : World) : World :=
  match o with
  | CacheStore cls key value => (cache_setitem cls key value w).2
  | CacheClear cls => (cache_clear cls w).2
  end.

(** ** A small world to run the adapters in *)

(** A stand-in for the XML library that knows one document, the answer to
    [get hours] with a single hour in it. *)
Inductive example_node := ExampleRoot | ExampleHour.

Definition example_hours_xml : string :=
  "<hours><hour><hourID>318</hourID></hour></hours>".

(** The session answers [get hours] with that document and [get lessons]
    with a text that is not XML, and fails on anything else. *)
Definition example_collaborators : Collaborators := {|
  Element := example_node;
  fromstring := λ s, if String.eqb s example_hours_xml then Some ExampleRoot else None;
  findall := λ node selector,
    match node with
    | ExampleRoot => if String.eqb selector ".//hour" then [ExampleHour] else []
    | ExampleHour => []
    end;
  xml_to_dict := λ node,
    match node with
    | ExampleHour => {[ "hourID" := PStr "318" ]}
    | ExampleRoot => ∅
    end;
  session_post := λ _ req,
    if String.eqb (req_action req) "get hours" then Ok example_hours_xml
    else if String.eqb (req_action req) "get lessons" then Ok "<lessons>"
    else Raise (SessionError "timed out");
  declared_fields := λ targetType,
    match targetType with AgendaHour => ["hourID"] | _ => [] end;
  default_key := λ _ now, decimal_of_int (now / 86400)
|}.

Definition example_world : World := initial_world 1700045313.

Definition example_hour : TypedRecord :=
  {| rec_type := AgendaHour; rec_attrs := {[ "hourID" := PStr "318" ]} |}.

(** The world after the hours of ["2023-11-16"] were fetched. *)
Definition example_world_fetched : World :=
  (_xml (H := example_collaborators) Hours (Some "2023-11-16") example_world).2.

(** A raw element with a single [assignment] under [assignments]. *)
Definition example_element : RawElement :=
  {[ "className" := PStr "3A";
     "assignments" := PDict {[ "assignment" := PDict {[ "title" := PStr "Toets 3" ]} ]} ]}.

(** ** Predicates used in the statements *)

(** The record has an attribute [hourID], as every [AgendaHour] does. *)
Definition has_hourID (hour : TypedRecord) : Prop :=
  is_Some (rec_attrs hour !! "hourID").

(** The record's [hourID] is the string [hourId]. *)
Definition hourID_is (hourId : string) (hour : TypedRecord) : Prop :=
  rec_attrs hour !! "hourID" = Some (PStr hourId).

(** The record type cached by each adapter class. *)
Definition target_of (cls : AdapterClass) : TargetType :=
  match cls with
  | LessonsClass => AgendaLesson
  | HoursClass => AgendaHour
  | MomentInfosClass => AgendaMomentInfo
  end.

(** The record is an instance of [targetType] and has every field that the
    type declares. *)
Definition well_typed `{Collaborators} (targetType : TargetType) (record : TypedRecord) : Prop :=
  rec_type record = targetType ∧
  ∀ f, f ∈ declared_fields targetType → is_Some (rec_attrs record !! f).

(** Every cached sequence holds instances of the record type of its class. *)
Definition caches_well_typed `{Collaborators} (w : World) : Prop :=
  ∀ cls k records, cache_contents cls w !! k = Some records →
    Forall (well_typed (target_of cls)) records.

(** ** The test fixture around the caches *)

(** [try: body finally: cleanup]: the cleanup runs whether the body returned
    or raised; the outcome is the body's, unless the cleanup itself raises. *)
Definition try_finally {A} (body : M A) (cleanup : M unit) : M A :=
  λ w, let '(r, w') := body w in
       match cleanup w' with
       | (Ok _, w'') => (r, w'')
       | (Raise e, w'') => (Raise e, w'')
       end.

(** The fixture [_clear_caches_from_agenda] of [tests/conftest.py] around
    one test: the [yield] is where the test runs. *)
Definition clear_caches_fixture {A} (test : M A) : M A :=
  try_finally test _clear_caches_from_agenda.

(** ** Shapes of strings *)

Definition starts_with_space (s : string) : bool :=
  match s with
  | EmptyString => false
  | String c _ => isspace c
  end.

Fixpoint ends_with_space (s : string) : bool :=
  match s with
  | EmptyString => false
  | String c s' =>
      match s' with
      | EmptyString => isspace c
      | String _ _ => ends_with_space s'
      end
  end.

(** No character of the string is whitespace. *)
Fixpoint no_space (s : string) : bool :=
  match s with
  | EmptyString => true
  | String c s' => negb (isspace c) && no_space s'
  end.

(** ** Reading the posted command in the test fixtures *)

(** Every character of the string satisfies [P]. *)
Fixpoint string_forall (P : ascii → bool) (s : string) : bool :=
  match s with
  | EmptyString => true
  | String c s' => P c && string_forall P s'
  end.

(** [.] in a regular expression: any character but the line feed. *)
Definition re_dot (c : ascii) : bool := negb (nat_of_ascii c =? 10)%nat.

(** [s] without its prefix [p], when [s] starts with [p]. *)
Fixpoint strip_prefix (p s : string) : option string :=
  match p with
  | EmptyString => Some s
  | String a p' =>
      match s with
      | EmptyString => None
      | String b s' => if Ascii.eqb a b then strip_prefix p' s' else None
      end
  end.

(** [(.*?)close] matched at the start of [s]: the group is the shortest run
    of [.] characters after which [close] follows. *)
Fixpoint lazy_group (close s : string) : option string :=
  match strip_prefix close s with
  | Some _ => Some EmptyString
  | None =>
      match s with
      | EmptyString => None
      | String c s' => if re_dot c then String c <$> lazy_group close s' else None
      end
  end.

(** The pattern [open(.*?)close] matched at the start of [s]. *)
Definition match_here (open close s : string) : option string :=
  rest ← strip_prefix open s; lazy_group close rest.

(** [re.search(open(.*?)close, s)] for literal texts [open] and [close]:
    the match that starts leftmost; the value is its group 1, [None] when
    nothing matches. *)
Fixpoint re_search_group (open close s : string) : option string :=
  match match_here open close s with
  | Some g => Some g
  | None =>
      match s with
      | EmptyString => None
      | String _ s' => re_search_group open close s'
      end
  end.

(** [m.group(1)], on what [re.search] returned. *)
Definition group1 (m : option string) : result string :=
  match m with
  | Some g => Ok g
  | None => Raise (AttributeError "group")
  end.

(** The two searches of [text_callback] in [tests/conftest.py], on the
    posted command [xml]. *)
Definition command_subsystem (xml : string) : result string :=
  group1 (re_search_group "<subsystem>" "</subsystem>" xml).

Definition command_action (xml : string) : result string :=
  group1 (re_search_group "<action>" "</action>" xml).

(** The text [p] starts at no position inside [pre], when [pre] is followed
    by [rest]. *)
Fixpoint starts_nowhere (p pre rest : string) : bool :=
  match pre with
  | EmptyString => true
  | String _ pre' =>
      match strip_prefix p (pre +:+ rest) with
      | Some _ => false
      | None => starts_nowhere p pre' rest
      end
  end.

(** * Properties *)

(** ** Strings *)

Lemma lstrip_whitespace_only s : whitespace_only s = true → lstrip s = "".
Proof.
  induction s as [|c s IH]; simpl; [done|].
  intros [Hc Hs]%andb_true_iff. rewrite Hc. auto.
Qed.

Lemma strip_whitespace_only s : whitespace_only s = true → strip s = "".
Proof. intros H. unfold strip. by rewrite lstrip_whitespace_only. Qed.

Lemma rstrip_empty s : rstrip s = "" → whitespace_only s = true.
Proof.
  induction s as [|c s IH]; simpl; [done|].
  destruct (rstrip s) eqn:E; [|done].
  destruct (isspace c); [|done]. intros _. by rewrite IH.
Qed.

Lemma lstrip_preserves_blank s :
  whitespace_only (lstrip s) = true → whitespace_only s = true.
Proof.
  induction s as [|c s IH]; simpl; [done|].
  destruct (isspace c) eqn:E; simpl; [done|]. by rewrite E.
Qed.

Lemma strip_empty_iff s : strip s = "" ↔ whitespace_only s = true.
Proof.
  split; [|apply strip_whitespace_only].
  intros H. by apply lstrip_preserves_blank, rstrip_empty.
Qed.

Lemma str_falsy_true s : str_falsy s = true ↔ s = "".
Proof. by destruct s. Qed.

Lemma str_falsy_false s : str_falsy s = false ↔ s ≠ "".
Proof. by destruct s. Qed.

(** ** The moment-info adapter *)

(** C3: the post-processing hook rewrites [assignments]: [None] becomes the
    empty list, a mapping whose [assignment] entry is a list becomes that
    list, a mapping whose [assignment] entry is a single value becomes the
    one-element list holding it; and whenever the hook returns, [assignments]
    is a list. *)
Theorem post_process_element_normalizes (element : RawElement) :
  (element !! "assignments" = Some PNone →
     SmartschoolMomentInfos._post_process_element element
     = Ok (<["assignments" := PList []]> element)) ∧
  (∀ d l, element !! "assignments" = Some (PDict d) →
     d !! "assignment" = Some (PList l) →
     SmartschoolMomentInfos._post_process_element element
     = Ok (<["assignments" := PList l]> element)) ∧
  (∀ d v, element !! "assignments" = Some (PDict d) →
     d !! "assignment" = Some v → isinstance_list v = false →
     SmartschoolMomentInfos._post_process_element element
     = Ok (<["assignments" := PList [v]]> element)) ∧
  (∀ element', SmartschoolMomentInfos._post_process_element element = Ok element' →
     ∃ l, element' !! "assignments" = Some (PList l)).
Proof.
  unfold SmartschoolMomentInfos._post_process_element, dict_getitem.
  repeat split.
  - intros ->. done.
  - intros d l -> Hd. simpl. unfold dict_getitem. by rewrite Hd.
  - intros d v -> Hd Hv. simpl. unfold dict_getitem. rewrite Hd. simpl.
    by rewrite Hv.
  - intros element'. destruct (element !! "assignments") as [a|]; [|done].
    simpl. destruct a as [| | | |d|b]; simpl; try done.
    + intros [= <-]. exists []. apply lookup_insert_eq.
    + unfold dict_getitem. destruct (d !! "assignment") as [x|]; [|done].
      simpl. destruct x; simpl; intros [= <-]; eexists; apply lookup_insert_eq.
Qed.

Example post_process_element_none :
  SmartschoolMomentInfos._post_process_element {[ "assignments" := PNone ]}
  = Ok {[ "assignments" := PList [] ]}.
Proof. reflexivity. Qed.

Example post_process_element_many :
  SmartschoolMomentInfos._post_process_element
    {[ "assignments" := PDict {[ "assignment" := PList [PStr "a"; PStr "b"] ]} ]}
  = Ok {[ "assignments" := PList [PStr "a"; PStr "b"] ]}.
Proof. reflexivity. Qed.

Example post_process_element_text :
  SmartschoolMomentInfos._post_process_element {[ "assignments" := PStr "none" ]}
  = Raise TypeError.
Proof. reflexivity. Qed.

Example post_process_element_absent :
  SmartschoolMomentInfos._post_process_element {[ "className" := PStr "3A" ]}
  = Raise (KeyError "assignments").
Proof. reflexivity. Qed.

(** The hook returns exactly on the two shapes it was written for: [None],
    and a mapping that has an [assignment] entry. *)
Lemma post_process_element_returns_iff (element : RawElement) :
  (∃ element', SmartschoolMomentInfos._post_process_element element = Ok element') ↔
  element !! "assignments" = Some PNone ∨
  ∃ d, element !! "assignments" = Some (PDict d) ∧ is_Some (d !! "assignment").
Proof.
  unfold SmartschoolMomentInfos._post_process_element, dict_getitem.
  destruct (element !! "assignments") as [a|]; simpl.
  - destruct a as [| | | |d|b]; simpl.
    + split; [by left|by eexists].
    + split; [by intros [? ?]|by intros [|(? & ? & ?)]].
    + split; [by intros [? ?]|by intros [|(? & ? & ?)]].
    + split; [by intros [? ?]|by intros [|(? & ? & ?)]].
    + unfold dict_getitem. destruct (d !! "assignment") as [x|] eqn:E; simpl.
      * split; [intros _; right; exists d; by rewrite E|].
        intros _. destruct (isinstance_list x); by eexists.
      * split; [by intros [? ?]|].
        intros [|(d' & [= <-] & [? ?])]; [done|congruence].
    + split; [by intros [? ?]|by intros [|(? & ? & ?)]].
  - split; [by intros [? ?]|by intros [|(? & ? & ?)]].
Qed.

(** C5: an identifier that is empty or made of whitespace only is refused
    with [ValueError]; the identifier ["12345"] is accepted and the request
    parameters then hold [momentID = "12345"]. *)
Theorem init_validates_moment_id (py_repr : pyval → result string) :
  (∀ s, whitespace_only s = true →
     SmartschoolMomentInfos.__init__ py_repr (PStr s)
     = Raise (ValueError "Please provide a valid MomentID")) ∧
  (∃ self, SmartschoolMomentInfos.__init__ py_repr (PStr "12345") = Ok self ∧
     params_get (SmartschoolMomentInfos._params self) "momentID" = Some (PStr "12345")).
Proof.
  split.
  - intros s Hs. unfold SmartschoolMomentInfos.__init__. simpl.
    by rewrite (strip_whitespace_only s Hs).
  - by eexists.
Qed.

(** ** The lessons adapter *)

(** C8: with [now] the reading of the clock, the lessons adapter asks for
    the window from [now] to [now + 432000], five days later, and
    [endDateTimestampOld] repeats [endDateTimestamp]. *)
Theorem lessons_params_five_day_window (now : Z) :
  let params := SmartschoolLessons._params now in
  params_get params "startDateTimestamp" = Some (PInt now) ∧
  params_get params "endDateTimestamp" = Some (PInt (now + 5 * 24 * 3600)) ∧
  params_get params "endDateTimestamp" = Some (PInt (now + 432000)) ∧
  params_get params "endDateTimestampOld" = params_get params "endDateTimestamp" ∧
  ∀ w, clock w = now → _params Lessons w = (Ok params, w).
Proof.
  repeat split. intros w <-. reflexivity.
Qed.

(** ** The hours adapter *)

Lemma py_eq_str_true v s : py_eq_str v s = true ↔ v = PStr s.
Proof.
  destruct v; simpl; try (split; [done|discriminate]).
  rewrite String.eqb_eq. split; [by intros ->|by intros [= ->]].
Qed.

Lemma search_loop_first_match pre hour post hourId :
  Forall has_hourID pre →
  Forall (λ h, ¬ hourID_is hourId h) pre →
  hourID_is hourId hour →
  SmartschoolHours.search_loop (pre ++ hour :: post) hourId = Ok hour.
Proof.
  intros Hattr Hne Hhit. induction pre as [|h pre IH]; simpl.
  - unfold getattr. rewrite Hhit. simpl. by rewrite String.eqb_refl.
  - inversion Hattr as [|? ? [v Hv] Hattr']; subst.
    inversion Hne as [|? ? Hh Hne']; subst.
    unfold getattr. rewrite Hv. simpl.
    destruct (py_eq_str v hourId) eqn:E.
    + apply py_eq_str_true in E as ->. by destruct Hh.
    + by apply IH.
Qed.

Lemma search_loop_no_match hours hourId :
  Forall has_hourID hours →
  Forall (λ h, ¬ hourID_is hourId h) hours →
  SmartschoolHours.search_loop hours hourId = Raise (ValueError ("Couldn't find " +:+ hourId)).
Proof.
  intros Hattr Hne. induction hours as [|h hours IH]; simpl; [done|].
  inversion Hattr as [|? ? [v Hv] Hattr']; subst.
  inversion Hne as [|? ? Hh Hne']; subst.
  unfold getattr. rewrite Hv. simpl.
  destruct (py_eq_str v hourId) eqn:E.
  - apply py_eq_str_true in E as ->. by destruct Hh.
  - by apply IH.
Qed.

Lemma hourID_is_dec hourId hour : {hourID_is hourId hour} + {¬ hourID_is hourId hour}.
Proof.
  unfold hourID_is. destruct (rec_attrs hour !! "hourID") as [v|]; [|by right].
  destruct (py_eq_str v hourId) eqn:E.
  - left. by apply py_eq_str_true in E as ->.
  - right. intros [= ->]. simpl in E. by rewrite String.eqb_refl in E.
Qed.

Lemma first_match_split hourId hours :
  Exists (hourID_is hourId) hours →
  ∃ pre hour post, hours = pre ++ hour :: post ∧
    Forall (λ h, ¬ hourID_is hourId h) pre ∧ hourID_is hourId hour.
Proof.
  induction hours as [|h hours IH]; intros Hex; [by inversion Hex|].
  destruct (hourID_is_dec hourId h) as [Hh|Hh].
  - by exists [], h, hours.
  - inversion Hex as [|? ? Hex']; subst; [done|].
    destruct (IH Hex') as (pre & hour & post & -> & Hpre & Hhour).
    exists (h :: pre), hour, post. split_and!; [done| |done].
    by constructor.
Qed.

(** C4: over the sequence of hour records that [_xml] returned,
    [search_by_hourId] returns the first record whose [hourID] is the
    requested id when there is one, and raises [ValueError] with the message
    ["Couldn't find <id>"] when there is none. *)
Theorem search_by_hourId_first_match_or_raises
    (date : Type) (_xml : option date → M (list TypedRecord))
    (hourId : string) (date_to_use : option date)
    (w w' : World) (hours : list TypedRecord) :
  _xml date_to_use w = (Ok hours, w') →
  Forall has_hourID hours →
  (Exists (hourID_is hourId) hours →
     ∃ pre hour post, hours = pre ++ hour :: post ∧
       Forall (λ h, ¬ hourID_is hourId h) pre ∧ hourID_is hourId hour ∧
       SmartschoolHours.search_by_hourId date _xml hourId date_to_use w = (Ok hour, w')) ∧
  (Forall (λ h, ¬ hourID_is hourId h) hours →
     SmartschoolHours.search_by_hourId date _xml hourId date_to_use w
     = (Raise (ValueError ("Couldn't find " +:+ hourId)), w')).
Proof.
  intros Hxml Hattr.
  unfold SmartschoolHours.search_by_hourId, mbind, M_bind, lift. rewrite Hxml.
  split.
  - intros (pre & hour & post & -> & Hpre & Hhour)%first_match_split.
    exists pre, hour, post. split_and!; [done..|].
    rewrite search_loop_first_match; [done| |done..].
    by apply Forall_app in Hattr as [? _].
  - intros Hne. by rewrite search_loop_no_match.
Qed.

(** ** The class-level caches *)

Lemma new_dict_fresh h : (new_dict h).1 ∉ dom h.
Proof. apply is_fresh. Qed.

Lemma new_dict_dom h : dom (new_dict h).2 = {[ (new_dict h).1 ]} ∪ dom h.
Proof. unfold new_dict. simpl. apply dom_insert_L. Qed.

Lemma import_agenda_distinct h c1 c2 :
  (import_agenda h).1 c1 = (import_agenda h).1 c2 → c1 = c2.
Proof.
  unfold import_agenda.
  destruct (new_dict h) as [l1 h1] eqn:E1.
  destruct (new_dict h1) as [l2 h2] eqn:E2.
  destruct (new_dict h2) as [l3 h3] eqn:E3.
  pose proof (new_dict_dom h) as D1. rewrite E1 in D1. simpl in D1.
  pose proof (new_dict_fresh h1) as F2. rewrite E2 in F2. simpl in F2.
  pose proof (new_dict_dom h1) as D2. rewrite E2 in D2. simpl in D2.
  pose proof (new_dict_fresh h2) as F3. rewrite E3 in F3. simpl in F3.
  assert (l2 ≠ l1) as N21.
  { intros ->. apply F2. rewrite D1. by apply elem_of_union_l, elem_of_singleton. }
  assert (l3 ≠ l1) as N31.
  { intros ->. apply F3. rewrite D2, D1.
    by apply elem_of_union_r, elem_of_union_l, elem_of_singleton. }
  assert (l3 ≠ l2) as N32.
  { intros ->. apply F3. rewrite D2. by apply elem_of_union_l, elem_of_singleton. }
  destruct c1, c2; simpl; intros; done.
Qed.

Lemma cache_inj c1 c2 : cache c1 = cache c2 → c1 = c2.
Proof. apply import_agenda_distinct. Qed.

Lemma cache_ne c1 c2 : c1 ≠ c2 → cache c1 ≠ cache c2.
Proof. intros Hne Heq. by apply Hne, cache_inj. Qed.

Lemma cache_contents_setitem_eq cls key value w :
  cache_contents cls (cache_setitem cls key value w).2
  = <[key := value]> (cache_contents cls w).
Proof. unfold cache_contents. simpl. by rewrite lookup_total_insert_eq. Qed.

Lemma cache_contents_setitem_ne cls cls' key value w :
  cls ≠ cls' →
  cache_contents cls' (cache_setitem cls key value w).2 = cache_contents cls' w.
Proof.
  intros Hne%cache_ne. unfold cache_contents. simpl.
  by rewrite lookup_total_insert_ne.
Qed.

Lemma cache_contents_clear_eq cls w :
  cache_contents cls (cache_clear cls w).2 = ∅.
Proof. unfold cache_contents. simpl. by rewrite lookup_total_insert_eq. Qed.

Lemma cache_contents_clear_ne cls cls' w :
  cls ≠ cls' →
  cache_contents cls' (cache_clear cls w).2 = cache_contents cls' w.
Proof.
  intros Hne%cache_ne. unfold cache_contents. simpl.
  by rewrite lookup_total_insert_ne.
Qed.

Lemma cache_step_frame o cls' w :
  cache_op_class o ≠ cls' →
  cache_contents cls' (cache_step o w) = cache_contents cls' w.
Proof.
  destruct o as [cls key value|cls]; simpl; intros Hne.
  - by apply cache_contents_setitem_ne.
  - by apply cache_contents_clear_ne.
Qed.

(** C10: the three adapter classes hold three different [dict] objects in
    their [cache] attribute, so that any sequence of stores into and clears
    of the caches of other classes leaves the cache of a class as it was. *)
Theorem caches_are_separate (cls' : AdapterClass) (ops : list cache_op) (w : World) :
  Forall (λ o, cache_op_class o ≠ cls') ops →
  (∀ cls, cls ≠ cls' → cache cls ≠ cache cls') ∧
  cache_contents cls' (foldl (λ w o, cache_step o w) w ops) = cache_contents cls' w.
Proof.
  intros Hops. split; [intros cls; apply cache_ne|].
  revert w. induction Hops as [|o ops Ho _ IH]; intros w; simpl; [done|].
  rewrite IH. by apply cache_step_frame.
Qed.

(** ** The pipeline *)

Section PipelineProperties.

Context `{Collaborators}.

(** C7: the parser returns the empty sequence, and no error, when the text
    is XML and no node matches the selector; it fails, with
    [MalformedResponse], exactly when the text is not parseable as XML. *)
Theorem parse_empty_or_malformed (rawXml selector : string) :
  (∀ root, fromstring rawXml = Some root → findall root selector = [] →
     parse rawXml selector = Ok []) ∧
  (parse rawXml selector = Raise MalformedResponse ↔ fromstring rawXml = None) ∧
  (∀ e, parse rawXml selector = Raise e → e = MalformedResponse).
Proof.
  unfold parse. split_and!.
  - intros root -> ->. done.
  - destruct (fromstring rawXml); split; done.
  - intros e. destruct (fromstring rawXml); [done|]. by intros [= <-].
Qed.

Lemma cache_contents_heap cls w w' :
  heap w = heap w' → cache_contents cls w = cache_contents cls w'.
Proof. unfold cache_contents. by intros ->. Qed.

Lemma _params_pure self w : ∃ params, _params self w = (Ok params, w).
Proof. destruct self; by eexists. Qed.

Lemma _params_request self w :
  _params self w = (Ok (req_params (request_of self w)), w).
Proof. by destruct self. Qed.

(** One run of the closure posts exactly one request and leaves the caches
    and the clock alone, whether it returns or raises. *)
Lemma fetchFn_world self w :
  heap (fetchFn self w).2 = heap w ∧
  requests (fetchFn self w).2 = requests w ++ [request_of self w] ∧
  clock (fetchFn self w).2 = clock w.
Proof.
  unfold fetchFn, mbind, M_bind. rewrite _params_request.
  unfold post, lift. simpl.
  destruct (session_post _ _) as [rawText|e]; simpl; [|done].
  by destruct (parse _ _) as [elements|e].
Qed.

Lemma _xml_hit self key records w :
  cache_contents (class_of self) w !! key = Some records →
  _xml self (Some key) w = (Ok records, w).
Proof.
  intros Hhit. unfold _xml, getOrFetch, mbind, M_bind, resolve_key, cache_get, mret, M_ret.
  by rewrite Hhit.
Qed.

Lemma _xml_miss self key w :
  cache_contents (class_of self) w !! key = None →
  _xml self (Some key) w
  = match fetchFn self w with
    | (Ok records, w') => (Ok records, (cache_setitem (class_of self) key records w').2)
    | (Raise e, w') => (Raise e, w')
    end.
Proof.
  intros Hmiss. unfold _xml, getOrFetch, mbind, M_bind, resolve_key, cache_get, mret, M_ret.
  rewrite Hmiss. by destruct (fetchFn self w) as [[records|e] w'].
Qed.

Lemma _xml_default_key self w :
  _xml self None w = _xml self (Some (default_key self (clock w))) w.
Proof. reflexivity. Qed.

(** A fetch never removes or replaces an entry that is already cached. *)
Lemma _xml_keeps_entry_explicit self key cls k records w :
  cache_contents cls w !! k = Some records →
  cache_contents cls (_xml self (Some key) w).2 !! k = Some records.
Proof.
  intros Hk.
  destruct (cache_contents (class_of self) w !! key) as [cached|] eqn:E.
  { by rewrite (_xml_hit _ _ _ _ E). }
  rewrite (_xml_miss _ _ _ E).
  destruct (fetchFn_world self w) as (Hheap & _ & _).
  destruct (fetchFn self w) as [[fetched|e] w']; cbn [snd] in *.
  - destruct (decide (class_of self = cls)) as [<-|Hne].
    + rewrite cache_contents_setitem_eq, (cache_contents_heap _ _ w Hheap).
      rewrite lookup_insert_ne; [done|]. intros ->. congruence.
    + rewrite cache_contents_setitem_ne by done.
      by rewrite (cache_contents_heap cls _ w Hheap).
  - by rewrite (cache_contents_heap cls _ w Hheap).
Qed.

Lemma _xml_keeps_entry self key cls k records w :
  cache_contents cls w !! k = Some records →
  cache_contents cls (_xml self key w).2 !! k = Some records.
Proof.
  destruct key as [key|]; [|rewrite _xml_default_key];
    apply _xml_keeps_entry_explicit.
Qed.

Lemma step_keeps_entry o cls k records w :
  is_clear o = false →
  cache_contents cls w !! k = Some records →
  cache_contents cls (step o w) !! k = Some records.
Proof.
  destruct o as [self key|now|]; simpl; [|done..].
  intros _. apply _xml_keeps_entry.
Qed.

Lemma run_keeps_entry ops cls k records w :
  Forall (λ o, is_clear o = false) ops →
  cache_contents cls w !! k = Some records →
  cache_contents cls (run ops w) !! k = Some records.
Proof.
  intros Hops. revert w. induction Hops as [|o ops Ho _ IH]; intros w Hk; simpl; [done|].
  by apply IH, step_keeps_entry.
Qed.

(** A fetch that returned leaves its result cached under the key. *)
Lemma _xml_caches_result self key records w w1 :
  _xml self (Some key) w = (Ok records, w1) →
  cache_contents (class_of self) w1 !! key = Some records.
Proof.
  destruct (cache_contents (class_of self) w !! key) as [cached|] eqn:E.
  - rewrite (_xml_hit _ _ _ _ E). by intros [= <- <-].
  - rewrite (_xml_miss _ _ _ E).
    destruct (fetchFn self w) as [[fetched|e] w']; [|done].
    intros [= <- <-]. unfold cache_contents at 1. simpl.
    rewrite lookup_total_insert_eq. apply lookup_insert_eq.
Qed.

(** C1: after a fetch under an explicit key has returned, and as long as the
    caches are not cleared, a fetch of the same adapter class under the same
    key is a cache hit: it returns the same sequence and leaves the world,
    and with it the list of posted requests, untouched.  The first fetch
    itself posted exactly one request if the key was not cached, and none
    if it was. *)
Theorem second_fetch_is_cache_hit (self self' : Adapter) (key : string)
    (w w1 : World) (records : list TypedRecord) (ops : list op) :
  _xml self (Some key) w = (Ok records, w1) →
  class_of self' = class_of self →
  Forall (λ o, is_clear o = false) ops →
  (cache_contents (class_of self) w !! key = None →
     requests w1 = requests w ++ [request_of self w]) ∧
  (is_Some (cache_contents (class_of self) w !! key) → requests w1 = requests w) ∧
  _xml self' (Some key) (run ops w1) = (Ok records, run ops w1).
Proof.
  intros Hfirst Hcls Hops. split_and!.
  - intros E. rewrite (_xml_miss _ _ _ E) in Hfirst.
    destruct (fetchFn_world self w) as (_ & Hreq & _).
    destruct (fetchFn self w) as [[fetched|e] w']; [|done].
    by injection Hfirst as <- <-.
  - intros [cached E]. rewrite (_xml_hit _ _ _ _ E) in Hfirst.
    by injection Hfirst as <- <-.
  - apply _xml_hit. rewrite Hcls.
    by apply run_keeps_entry, (_xml_caches_result _ _ _ w).
Qed.

Lemma fetchFn_raises_iff self w e :
  (fetchFn self w).1 = Raise e ↔ stage_raises self w e.
Proof.
  unfold fetchFn, stage_raises, mbind, M_bind. rewrite _params_request.
  unfold post, lift. cbn [fst snd].
  change {| req_subsystem := _subsystem self; req_action := _action self;
            req_params := req_params (request_of self w) |}
    with (request_of self w).
  destruct (session_post _ _) as [rawText|e1]; cbn [fst].
  - destruct (parse rawText (_xpath self)) as [elements|e2] eqn:Eparse; cbn [fst].
    + split.
      * intros Hmap. right. exists rawText. split; [done|]. right.
        by exists elements.
      * intros [|(? & [= <-] & [|(? & ? & ?)])]; [done| |]; congruence.
    + split.
      * intros [= ->]. right. exists rawText. split; [done|]. by left.
      * intros [|(? & [= <-] & [|(? & ? & ?)])]; congruence.
  - split.
    + intros [= ->]. by left.
    + intros [|(? & ? & ?)]; congruence.
Qed.

Lemma _xml_miss_result self key w :
  cache_contents (class_of self) w !! key = None →
  (_xml self (Some key) w).1 = (fetchFn self w).1 ∧
  requests (_xml self (Some key) w).2 = requests w ++ [request_of self w].
Proof.
  intros E. rewrite (_xml_miss _ _ _ E).
  destruct (fetchFn_world self w) as (_ & Hreq & _).
  by destruct (fetchFn self w) as [[fetched|e] w'].
Qed.

(** C2: a fetch that finds the key uncached raises the very error that the
    session, the parser or the mapper raised; and after a fetch has raised,
    nothing is cached under the key, no cache has changed, and the next
    fetch under the key posts a request again. *)
Theorem failed_fetch_is_not_cached (self : Adapter) (key : string) (w : World) (e : exn) :
  (cache_contents (class_of self) w !! key = None → stage_raises self w e →
     (_xml self (Some key) w).1 = Raise e) ∧
  (∀ w1, _xml self (Some key) w = (Raise e, w1) →
     stage_raises self w e ∧
     cache_contents (class_of self) w1 !! key = None ∧
     (∀ cls, cache_contents cls w1 = cache_contents cls w) ∧
     requests w1 = requests w ++ [request_of self w] ∧
     ∀ now, requests (_xml self (Some key) (set_clock now w1)).2
            = requests w1 ++ [request_of self (set_clock now w1)]).
Proof.
  split.
  - intros E Hstage. destruct (_xml_miss_result _ _ _ E) as [-> _].
    by apply fetchFn_raises_iff.
  - intros w1 Hraise.
    destruct (cache_contents (class_of self) w !! key) as [cached|] eqn:E.
    { by rewrite (_xml_hit _ _ _ _ E) in Hraise. }
    pose proof (fetchFn_raises_iff self w e) as Hiff.
    rewrite (_xml_miss _ _ _ E) in Hraise.
    destruct (fetchFn_world self w) as (Hheap & Hreq & _).
    destruct (fetchFn self w) as [[fetched|e'] w']; [done|].
    injection Hraise as <- <-. cbn [fst snd] in *.
    assert (∀ cls, cache_contents cls w' = cache_contents cls w) as Hsame
      by (intros cls; by apply cache_contents_heap).
    split_and!; [by apply Hiff|by rewrite Hsame|done..|].
    intros now. apply (_xml_miss_result self key (set_clock now w')).
    rewrite <- E, <- Hsame. by f_equal.
Qed.

Lemma clear_caches_world w :
  (∀ cls, cache_contents cls (_clear_caches_from_agenda w).2 = ∅) ∧
  requests (_clear_caches_from_agenda w).2 = requests w ∧
  clock (_clear_caches_from_agenda w).2 = clock w.
Proof.
  split; [|done]. intros cls. unfold cache_contents. simpl.
  destruct cls.
  - rewrite lookup_total_insert_ne by (by apply cache_ne).
    rewrite lookup_total_insert_ne by (by apply cache_ne).
    by rewrite lookup_total_insert_eq.
  - rewrite lookup_total_insert_ne by (by apply cache_ne).
    by rewrite lookup_total_insert_eq.
  - by rewrite lookup_total_insert_eq.
Qed.

(** C6: the reset hook leaves every adapter class with an empty cache and
    posts nothing; a fetch after it, under any key, whatever was cached
    before, goes to the network: it posts one request and its outcome is the
    outcome of that fresh request, parse and mapping. *)
Theorem clear_then_fetch_posts_again (self : Adapter) (key : string) (w : World) :
  let w' := (_clear_caches_from_agenda w).2 in
  (∀ cls k, cache_contents cls w' !! k = None) ∧
  requests w' = requests w ∧
  (_xml self (Some key) w').1 = (fetchFn self w').1 ∧
  requests (_xml self (Some key) w').2 = requests w' ++ [request_of self w'].
Proof.
  intros w'. destruct (clear_caches_world w) as (Hempty & Hreq & _).
  assert (∀ cls k, cache_contents cls w' !! k = None) as Hnone.
  { intros cls k. unfold w'. by rewrite Hempty. }
  split_and!; [done..| |]; by apply _xml_miss_result.
Qed.

(** *** What the caches hold *)

Lemma instantiate_well_typed targetType element record :
  instantiate targetType element = Ok record → well_typed targetType record.
Proof.
  unfold instantiate.
  destruct (List.find _ _) as [f|] eqn:Hfind; [done|].
  intros [= <-]. split; [done|]. intros f Hf. simpl.
  pose proof (find_none _ _ Hfind f (proj1 (list_elem_of_In _ _) Hf)) as Hsome.
  apply bool_decide_eq_false in Hsome.
  destruct (element !! f) as [v|] eqn:E; [|done].
  exists v. by apply map_lookup_filter_Some.
Qed.

Lemma map_records_well_typed rawElements targetType postProcess records :
  map_records rawElements targetType postProcess = Ok records →
  Forall (well_typed targetType) records.
Proof.
  revert records. induction rawElements as [|element rest IH]; simpl; intros records.
  - intros [= <-]. constructor.
  - destruct (postProcess element) as [element'|]; simpl; [|done].
    destruct (instantiate targetType element') as [record|] eqn:E; simpl; [|done].
    destruct (map_records rest targetType postProcess) as [rs|]; simpl; [|done].
    intros [= <-]. constructor; [by eapply instantiate_well_typed|by apply IH].
Qed.

Lemma target_of_class self : target_of (class_of self) = _object_to_instantiate self.
Proof. by destruct self. Qed.

Lemma fetchFn_well_typed self w records w' :
  fetchFn self w = (Ok records, w') →
  Forall (well_typed (target_of (class_of self))) records.
Proof.
  rewrite target_of_class.
  unfold fetchFn, mbind, M_bind. rewrite _params_request.
  unfold post, lift. cbn [fst snd].
  destruct (session_post _ _) as [rawText|]; [|done].
  destruct (parse rawText (_xpath self)) as [elements|]; [|done].
  intros [= Hmap _]. by eapply map_records_well_typed.
Qed.

Lemma caches_well_typed_heap w w' :
  heap w = heap w' → caches_well_typed w → caches_well_typed w'.
Proof.
  intros Hheap Hwf cls k records. rewrite <- (cache_contents_heap cls w w' Hheap).
  apply Hwf.
Qed.

Lemma _xml_well_typed self key w :
  caches_well_typed w →
  caches_well_typed (_xml self key w).2 ∧
  ∀ records, (_xml self key w).1 = Ok records →
    Forall (well_typed (target_of (class_of self))) records.
Proof.
  intros Hwf. destruct key as [key|]; [|rewrite _xml_default_key];
    [|set (key := default_key self (clock w))].
  all: destruct (cache_contents (class_of self) w !! key) as [cached|] eqn:E.
  1,3: rewrite (_xml_hit _ _ _ _ E); split; [done|];
       intros records [= <-]; by apply (Hwf _ _ _ E).
  all: rewrite (_xml_miss _ _ _ E).
  all: destruct (fetchFn_world self w) as (Hheap & _ & _).
  all: pose proof (fetchFn_well_typed self w) as Hty.
  all: destruct (fetchFn self w) as [[fetched|e] w']; cbn [fst snd] in *.
  2,4: split; [by apply (caches_well_typed_heap w)|done].
  all: specialize (Hty _ _ eq_refl).
  all: split; [|by intros records [= <-]].
  all: intros cls k records.
  all: destruct (decide (class_of self = cls)) as [<-|Hne].
  1,3: rewrite cache_contents_setitem_eq, (cache_contents_heap _ _ w Hheap);
       destruct (decide (key = k)) as [<-|Hk];
       [rewrite lookup_insert_eq; by intros [= <-]
       |rewrite lookup_insert_ne by done; apply Hwf].
  all: rewrite cache_contents_setitem_ne by done.
  all: rewrite (cache_contents_heap cls _ w Hheap); apply Hwf.
Qed.

Lemma step_well_typed o w : caches_well_typed w → caches_well_typed (step o w).
Proof.
  intros Hwf. destruct o as [self key|now|]; simpl.
  - by apply _xml_well_typed.
  - by apply (caches_well_typed_heap w).
  - intros cls k records. destruct (clear_caches_world w) as (Hempty & _).
    by rewrite Hempty.
Qed.

Lemma run_well_typed ops w : caches_well_typed w → caches_well_typed (run ops w).
Proof.
  revert w. induction ops as [|o ops IH]; intros w Hwf; simpl; [done|].
  by apply IH, step_well_typed.
Qed.

Lemma initial_world_well_typed now : caches_well_typed (initial_world now).
Proof. intros cls k records. by destruct cls. Qed.

(** In every world reached from the import by fetches, clock changes and
    resets, the hours adapter returns records that have an [hourID], as soon
    as [AgendaHour] declares that field. *)
Lemma fetched_hours_have_hourID ops now key :
  "hourID" ∈ declared_fields AgendaHour →
  ∀ hours, (_xml Hours key (run ops (initial_world now))).1 = Ok hours →
    Forall has_hourID hours.
Proof.
  intros Hdecl hours Hfetch.
  destruct (_xml_well_typed Hours key (run ops (initial_world now))) as [_ Hty].
  { apply run_well_typed, initial_world_well_typed. }
  eapply Forall_impl; [by apply Hty|].
  intros hour [_ Hfields]. by apply Hfields.
Qed.

End PipelineProperties.

(** ** The properties at work in the small world *)

Lemma post_process_element_normalizes_witness :
  SmartschoolMomentInfos._post_process_element example_element
  = Ok (<["assignments" := PList [PDict {[ "title" := PStr "Toets 3" ]}]]> example_element).
Proof.
  destruct (post_process_element_normalizes example_element) as (_ & _ & Hsingle & _).
  apply (Hsingle {[ "assignment" := PDict {[ "title" := PStr "Toets 3" ]} ]}
                 (PDict {[ "title" := PStr "Toets 3" ]})); reflexivity.
Defined.

Lemma init_validates_moment_id_witness :
  whitespace_only "   " = true ∧
  SmartschoolMomentInfos.__init__ (λ _, Ok "") (PStr "   ")
  = Raise (ValueError "Please provide a valid MomentID").
Proof.
  split; [reflexivity|].
  apply (proj1 (init_validates_moment_id (λ _, Ok ""))). reflexivity.
Defined.

Lemma lessons_params_five_day_window_witness :
  _params Lessons example_world
  = (Ok (SmartschoolLessons._params 1700045313), example_world).
Proof.
  apply (lessons_params_five_day_window 1700045313). reflexivity.
Defined.

Section Examples.

Local Existing Instance example_collaborators.

Lemma example_first_fetch :
  _xml Hours (Some "2023-11-16") example_world = (Ok [example_hour], example_world_fetched).
Proof. vm_compute. reflexivity. Qed.

Lemma search_by_hourId_first_match_or_raises_witness :
  SmartschoolHours.search_by_hourId string (_xml Hours) "319" (Some "2023-11-16") example_world
  = (Raise (ValueError "Couldn't find 319"), example_world_fetched).
Proof.
  apply (search_by_hourId_first_match_or_raises string (_xml Hours) "319"
           (Some "2023-11-16") example_world example_world_fetched [example_hour]).
  - vm_compute. reflexivity.
  - repeat constructor. by eexists.
  - repeat constructor. intros Hhit. vm_compute in Hhit. discriminate Hhit.
Defined.

Example search_by_hourId_finds_318 :
  SmartschoolHours.search_by_hourId string (_xml Hours) "318" (Some "2023-11-16") example_world
  = (Ok example_hour, example_world_fetched).
Proof. vm_compute. reflexivity. Qed.

Lemma parse_empty_or_malformed_witness :
  parse example_hours_xml ".//lesson" = Ok [] ∧
  parse "<lessons>" ".//lesson" = Raise MalformedResponse.
Proof.
  split.
  - destruct (parse_empty_or_malformed (H := example_collaborators)
                example_hours_xml ".//lesson") as (Hempty & _).
    apply (Hempty ExampleRoot); reflexivity.
  - apply (proj1 (proj2 (parse_empty_or_malformed "<lessons>" ".//lesson"))). reflexivity.
Defined.

Lemma second_fetch_is_cache_hit_witness :
  let ops := [OpClock 1700131713; OpFetch Lessons None;
              OpFetch Hours (Some "2023-11-17")] in
  _xml Hours (Some "2023-11-16") (run ops example_world_fetched)
  = (Ok [example_hour], run ops example_world_fetched).
Proof.
  intros ops.
  apply (second_fetch_is_cache_hit Hours Hours "2023-11-16" example_world
           example_world_fetched [example_hour] ops).
  - vm_compute. reflexivity.
  - reflexivity.
  - repeat constructor.
Defined.

Lemma failed_fetch_is_not_cached_witness :
  let w1 := (_xml Lessons (Some "2023-11-16") example_world).2 in
  (_xml Lessons (Some "2023-11-16") example_world).1 = Raise MalformedResponse ∧
  cache_contents LessonsClass w1 !! "2023-11-16" = None ∧
  requests (_xml Lessons (Some "2023-11-16") (set_clock 1700045400 w1)).2
  = requests w1 ++ [request_of Lessons (set_clock 1700045400 w1)].
Proof.
  intros w1.
  destruct (failed_fetch_is_not_cached Lessons "2023-11-16" example_world MalformedResponse)
    as [Hraises Hafter].
  split.
  - apply Hraises; [reflexivity|]. right. exists "<lessons>". split; [reflexivity|].
    left. reflexivity.
  - destruct (Hafter w1) as (_ & Hnone & _ & _ & Hretry); [vm_compute; reflexivity|].
    split; [exact Hnone|]. exact (Hretry 1700045400%Z).
Defined.

End Examples.

Lemma caches_are_separate_witness :
  let ops := [CacheStore LessonsClass "2023-11-16" []; CacheClear MomentInfosClass] in
  cache_contents HoursClass (foldl (λ w o, cache_step o w) example_world_fetched ops)
  = cache_contents HoursClass example_world_fetched.
Proof.
  intros ops. apply (caches_are_separate HoursClass ops example_world_fetched).
  repeat constructor; discriminate.
Defined.

(** * Further properties *)

(** ** More on [strip] *)

Lemma append_cons c (a b : string) : String c a +:+ b = String c (a +:+ b).
Proof. reflexivity. Qed.

Lemma append_nil (b : string) : "" +:+ b = b.
Proof. reflexivity. Qed.

Lemma lstrip_split s :
  ∃ pre, s = pre +:+ lstrip s ∧ whitespace_only pre = true.
Proof.
  induction s as [|c s (pre & IH & Hpre)]; simpl.
  - by exists "".
  - destruct (isspace c) eqn:E.
    + exists (String c pre). simpl. rewrite E, Hpre, append_cons, <- IH. done.
    + by exists "".
Qed.

Lemma rstrip_split s :
  ∃ post, s = rstrip s +:+ post ∧ whitespace_only post = true.
Proof.
  induction s as [|c s (post & IH & Hpost)]; simpl.
  - by exists "".
  - destruct (rstrip s) as [|a r] eqn:E.
    + rewrite append_nil in IH. subst post. destruct (isspace c) eqn:Ec.
      * exists (String c s). simpl. by rewrite Ec, Hpost.
      * exists s. by rewrite append_cons, append_nil.
    + exists post. split; [|done]. by rewrite append_cons, <- IH.
Qed.

Lemma lstrip_no_leading_space s : starts_with_space (lstrip s) = false.
Proof.
  induction s as [|c s IH]; simpl; [done|].
  destruct (isspace c) eqn:E; [done|]. simpl. done.
Qed.

Lemma lstrip_id s : starts_with_space s = false → lstrip s = s.
Proof. destruct s as [|c s]; simpl; [done|]. by intros ->. Qed.

Lemma rstrip_keeps_start s :
  starts_with_space s = false → starts_with_space (rstrip s) = false.
Proof.
  destruct s as [|c s]; simpl; [done|]. intros Hc.
  destruct (rstrip s); [by rewrite Hc|done].
Qed.

Lemma rstrip_no_trailing_space s : ends_with_space (rstrip s) = false.
Proof.
  induction s as [|c s IH]; simpl; [done|].
  destruct (rstrip s) as [|a r].
  - by destruct (isspace c) eqn:E.
  - done.
Qed.

Lemma rstrip_id s : ends_with_space s = false → rstrip s = s.
Proof.
  induction s as [|c s IH]; simpl; [done|].
  destruct s as [|a r].
  - by intros ->.
  - intros Hs. by rewrite (IH Hs).
Qed.

Lemma strip_no_edge_space s :
  starts_with_space (strip s) = false ∧ ends_with_space (strip s) = false.
Proof.
  split.
  - apply rstrip_keeps_start, lstrip_no_leading_space.
  - apply rstrip_no_trailing_space.
Qed.

Lemma strip_id s :
  starts_with_space s = false → ends_with_space s = false → strip s = s.
Proof. intros Hs He. unfold strip. by rewrite lstrip_id, rstrip_id. Qed.

Lemma strip_idempotent s : strip (strip s) = strip s.
Proof. apply strip_id; apply strip_no_edge_space. Qed.

Lemma append_assoc (a b c : string) : (a +:+ b) +:+ c = a +:+ b +:+ c.
Proof.
  induction a as [|x a IH]; [done|]. by rewrite !append_cons, IH.
Qed.

Lemma strip_split s :
  ∃ pre post, s = pre +:+ strip s +:+ post ∧
    whitespace_only pre = true ∧ whitespace_only post = true.
Proof.
  destruct (lstrip_split s) as (pre & Hs & Hpre).
  destruct (rstrip_split (lstrip s)) as (post & Hl & Hpost).
  exists pre, post. split_and!; [|done..].
  unfold strip. by rewrite <- Hl.
Qed.

Lemma no_space_edges s :
  no_space s = true → starts_with_space s = false ∧ ends_with_space s = false.
Proof.
  induction s as [|c s IH]; simpl; [done|].
  intros [Hc Hs]%andb_true_iff. apply negb_true_iff in Hc.
  split; [done|]. destruct s; [done|]. by apply IH.
Qed.

Lemma string_of_uint_no_space d : no_space (NilEmpty.string_of_uint d) = true.
Proof. induction d; simpl; done. Qed.

Lemma decimal_of_int_no_space z : no_space (decimal_of_int z) = true.
Proof.
  unfold decimal_of_int, NilZero.string_of_int, NilZero.string_of_uint.
  destruct (Z.to_int z) as [d|d]; destruct d; try done;
    simpl; apply string_of_uint_no_space.
Qed.

Lemma decimal_of_int_nonempty z : decimal_of_int z ≠ "".
Proof.
  unfold decimal_of_int, NilZero.string_of_int, NilZero.string_of_uint.
  destruct (Z.to_int z) as [d|d]; destruct d; done.
Qed.

Lemma lstrip_app_blank pre s : whitespace_only pre = true → lstrip (pre +:+ s) = lstrip s.
Proof.
  induction pre as [|c pre IH]; [done|]. simpl.
  intros [Hc Hpre]%andb_true_iff. rewrite Hc. auto.
Qed.

Lemma rstrip_blank post : whitespace_only post = true → rstrip post = "".
Proof.
  induction post as [|c post IH]; [done|]. simpl.
  intros [Hc Hpost]%andb_true_iff. by rewrite (IH Hpost), Hc.
Qed.

Lemma rstrip_app_blank m post :
  ends_with_space m = false → whitespace_only post = true → rstrip (m +:+ post) = m.
Proof.
  intros Hm Hpost. induction m as [|c m IH].
  - rewrite append_nil. by apply rstrip_blank.
  - rewrite append_cons. simpl. destruct m as [|a r].
    + rewrite append_nil, (rstrip_blank post Hpost). simpl in Hm. by rewrite Hm.
    + by rewrite (IH Hm).
Qed.

(** What [strip] computes, said without it: of a string that is a run of
    whitespace, a text that neither starts nor ends with whitespace, and a
    run of whitespace, [strip] keeps the text. *)
Lemma strip_spec pre m post :
  whitespace_only pre = true → whitespace_only post = true →
  starts_with_space m = false → ends_with_space m = false →
  strip (pre +:+ m +:+ post) = m.
Proof.
  intros Hpre Hpost Hs He. unfold strip. rewrite (lstrip_app_blank _ _ Hpre).
  destruct m as [|c m].
  - rewrite append_nil, (lstrip_whitespace_only post Hpost). done.
  - rewrite lstrip_id by (by rewrite append_cons).
    by apply rstrip_app_blank.
Qed.

(** ** More on the moment-info adapter *)

Lemma init_inv py_repr moment_id self :
  SmartschoolMomentInfos.__init__ py_repr moment_id = Ok self →
  ∃ s, SmartschoolMomentInfos.py_str py_repr moment_id = Ok s ∧
    SmartschoolMomentInfos._moment_id self = strip s ∧
    strip s ≠ "".
Proof.
  unfold SmartschoolMomentInfos.__init__.
  destruct (SmartschoolMomentInfos.py_str py_repr moment_id) as [s|e]; [|done].
  simpl. destruct (str_falsy _) eqn:E; [done|].
  intros [= <-]. exists s. split_and!; [done..|]. by apply str_falsy_false.
Qed.

(** An exception of [str] is the constructor's exception. *)
Lemma init_str_raises py_repr moment_id e :
  SmartschoolMomentInfos.py_str py_repr moment_id = Raise e →
  SmartschoolMomentInfos.__init__ py_repr moment_id = Raise e.
Proof. unfold SmartschoolMomentInfos.__init__. by intros ->. Qed.

(** C9: the constructor takes the string form of whatever it is given and
    removes the whitespace at its two ends before it validates.  Whenever
    that string form is not made of whitespace only, it is a run of
    whitespace, a non-empty text [m] that neither starts nor ends with
    whitespace, and a run of whitespace; the construction succeeds, the
    stored identifier and the [momentID] parameter are [m], and [m] is the
    only text that fits. So the integer [12345] and the string [" 12345 "]
    both give ["12345"]. *)
Theorem init_stores_stripped_string_form
    (py_repr : pyval → result string) (moment_id : pyval) (s : string) :
  SmartschoolMomentInfos.py_str py_repr moment_id = Ok s →
  whitespace_only s = false →
  ∃ pre m post,
    s = pre +:+ m +:+ post ∧
    whitespace_only pre = true ∧ whitespace_only post = true ∧
    m ≠ "" ∧ starts_with_space m = false ∧ ends_with_space m = false ∧
    SmartschoolMomentInfos.__init__ py_repr moment_id
    = Ok {| SmartschoolMomentInfos._moment_id := m |} ∧
    params_get (SmartschoolMomentInfos._params {| SmartschoolMomentInfos._moment_id := m |})
      "momentID" = Some (PStr m) ∧
    ∀ pre' m' post',
      s = pre' +:+ m' +:+ post' →
      whitespace_only pre' = true → whitespace_only post' = true →
      starts_with_space m' = false → ends_with_space m' = false →
      m' = m.
Proof.
  intros Hstr Hblank.
  destruct (strip_split s) as (pre & post & Hs & Hpre & Hpost).
  destruct (strip_no_edge_space s) as [Hstart Hend].
  assert (strip s ≠ "") as Hne.
  { intros Hempty%strip_empty_iff. congruence. }
  exists pre, (strip s), post. split_and!; try done.
  - unfold SmartschoolMomentInfos.__init__. rewrite Hstr. simpl.
    apply str_falsy_false in Hne. by rewrite Hne.
  - intros pre' m' post' -> Hpre' Hpost' Hstart' Hend'.
    symmetry. by apply strip_spec.
Qed.

(** Whatever the constructor was given, the identifier of a constructed
    adapter is not empty and neither starts nor ends with whitespace. *)
Theorem init_moment_id_is_trimmed (py_repr : pyval → result string) (moment_id : pyval)
    (self : SmartschoolMomentInfos.t) :
  SmartschoolMomentInfos.__init__ py_repr moment_id = Ok self →
  SmartschoolMomentInfos._moment_id self ≠ "" ∧
  starts_with_space (SmartschoolMomentInfos._moment_id self) = false ∧
  ends_with_space (SmartschoolMomentInfos._moment_id self) = false.
Proof.
  intros (s & _ & -> & Hne)%init_inv. split; [done|]. apply strip_no_edge_space.
Qed.

(** Constructing an adapter again from the identifier of a constructed
    adapter gives that same adapter. *)
Theorem init_from_own_moment_id (py_repr py_repr' : pyval → result string)
    (moment_id : pyval) (self : SmartschoolMomentInfos.t) :
  SmartschoolMomentInfos.__init__ py_repr moment_id = Ok self →
  SmartschoolMomentInfos.__init__ py_repr' (PStr (SmartschoolMomentInfos._moment_id self))
  = Ok self.
Proof.
  intros (s & _ & Hid & Hne)%init_inv. unfold SmartschoolMomentInfos.__init__. simpl.
  rewrite Hid, strip_idempotent. apply str_falsy_false in Hne. rewrite Hne.
  destruct self as [id]. simpl in Hid. by rewrite Hid.
Qed.

(** The constructor removes whitespace at the two ends only: the string form
    of its argument is the stored identifier between two runs of
    whitespace. *)
Theorem init_trims_only_the_ends (py_repr : pyval → result string) (moment_id : pyval)
    (self : SmartschoolMomentInfos.t) :
  SmartschoolMomentInfos.__init__ py_repr moment_id = Ok self →
  ∃ pre post,
    SmartschoolMomentInfos.py_str py_repr moment_id
    = Ok (pre +:+ SmartschoolMomentInfos._moment_id self +:+ post) ∧
    whitespace_only pre = true ∧ whitespace_only post = true.
Proof.
  intros (s & -> & -> & _)%init_inv.
  destruct (strip_split s) as (pre & post & Hs & Hpre & Hpost).
  exists pre, post. split_and!; [|done..]. by rewrite <- Hs.
Qed.

(** An [int] of at most 4300 digits is accepted, and its identifier is its
    decimal numeral; an [int] of more digits is refused with the
    [ValueError] of [str]; [True] and [False] are accepted as ["True"] and
    ["False"], and [None] as ["None"]. *)
Theorem init_on_int_bool_and_none (py_repr : pyval → result string) (z : Z) (b : bool) :
  ((String.length (decimal_digits z) ≤ int_max_str_digits)%nat →
     SmartschoolMomentInfos.__init__ py_repr (PInt z)
     = Ok {| SmartschoolMomentInfos._moment_id := decimal_of_int z |}) ∧
  ((int_max_str_digits < String.length (decimal_digits z))%nat →
     SmartschoolMomentInfos.__init__ py_repr (PInt z)
     = Raise (ValueError int_max_str_digits_error)) ∧
  SmartschoolMomentInfos.__init__ py_repr (PBool b)
  = Ok {| SmartschoolMomentInfos._moment_id := str_of_bool b |} ∧
  SmartschoolMomentInfos.__init__ py_repr PNone
  = Ok {| SmartschoolMomentInfos._moment_id := "None" |}.
Proof.
  split_and!.
  - intros Hle. unfold SmartschoolMomentInfos.__init__. simpl. unfold str_of_int.
    apply Nat.ltb_ge in Hle. rewrite Hle. simpl.
    destruct (no_space_edges _ (decimal_of_int_no_space z)) as [Hs He].
    rewrite (strip_id _ Hs He).
    pose proof (decimal_of_int_nonempty z) as Hne. apply str_falsy_false in Hne.
    by rewrite Hne.
  - intros Hlt. unfold SmartschoolMomentInfos.__init__. simpl. unfold str_of_int.
    apply Nat.ltb_lt in Hlt. by rewrite Hlt.
  - by destruct b.
  - done.
Qed.

Lemma post_process_element_inv (element element' : RawElement) :
  SmartschoolMomentInfos._post_process_element element = Ok element' →
  ∃ old l, element !! "assignments" = Some old ∧
    element' = <["assignments" := PList l]> element.
Proof.
  unfold SmartschoolMomentInfos._post_process_element, dict_getitem.
  destruct (element !! "assignments") as [a|]; [|done]. simpl.
  destruct a as [| | | |d|b]; simpl; try done.
  - intros [= <-]. by exists PNone, [].
  - unfold dict_getitem. destruct (d !! "assignment") as [x|]; [|done]. simpl.
    destruct x; simpl; intros [= <-]; by eexists _, _.
Qed.

(** The hook touches nothing but [assignments]: every other field of the
    element keeps its value, and no field is added or removed. *)
Theorem post_process_element_frame (element element' : RawElement) :
  SmartschoolMomentInfos._post_process_element element = Ok element' →
  (∀ k, k ≠ "assignments" → element' !! k = element !! k) ∧
  dom element' = dom element.
Proof.
  intros (old & l & Hold & ->)%post_process_element_inv. split.
  - intros k Hk. by rewrite lookup_insert_ne.
  - apply dom_insert_lookup_L. by exists old.
Qed.

(** The hook cannot be applied twice: on an element it has already
    rewritten it raises [TypeError]. *)
Theorem post_process_element_twice (element element' : RawElement) :
  SmartschoolMomentInfos._post_process_element element = Ok element' →
  SmartschoolMomentInfos._post_process_element element' = Raise TypeError.
Proof.
  intros (old & l & Hold & ->)%post_process_element_inv.
  unfold SmartschoolMomentInfos._post_process_element, dict_getitem.
  by rewrite lookup_insert_eq.
Qed.

(** When the hook fails: [KeyError] for a missing [assignments] and for a
    mapping without [assignment], [TypeError] for any other value that is
    neither [None] nor a mapping; and it raises nothing else. *)
Theorem post_process_element_errors (element : RawElement) :
  (element !! "assignments" = None →
     SmartschoolMomentInfos._post_process_element element
     = Raise (KeyError "assignments")) ∧
  (∀ d, element !! "assignments" = Some (PDict d) → d !! "assignment" = None →
     SmartschoolMomentInfos._post_process_element element
     = Raise (KeyError "assignment")) ∧
  (∀ v, element !! "assignments" = Some v → v ≠ PNone → (∀ d, v ≠ PDict d) →
     SmartschoolMomentInfos._post_process_element element = Raise TypeError) ∧
  (∀ e, SmartschoolMomentInfos._post_process_element element = Raise e →
     e = KeyError "assignments" ∨ e = KeyError "assignment" ∨ e = TypeError).
Proof.
  unfold SmartschoolMomentInfos._post_process_element, dict_getitem.
  split_and!.
  - by intros ->.
  - intros d -> Hd. simpl. unfold dict_getitem. by rewrite Hd.
  - intros v -> Hnone Hdict. simpl. destruct v; try done. by destruct (Hdict d).
  - intros e. destruct (element !! "assignments") as [a|]; simpl.
    + destruct a as [| | | |d|b]; simpl; try done; try (intros [= <-]; auto).
      unfold dict_getitem. destruct (d !! "assignment") as [x|]; simpl.
      * by destruct (isinstance_list x).
      * intros [= <-]. auto.
    + intros [= <-]. auto.
Qed.

(** ** More on the hours adapter *)

Lemma search_loop_sound hours hourId hour :
  SmartschoolHours.search_loop hours hourId = Ok hour →
  hour ∈ hours ∧ hourID_is hourId hour.
Proof.
  induction hours as [|h hours IH]; simpl; [done|].
  unfold getattr. destruct (rec_attrs h !! "hourID") as [v|] eqn:Hv; simpl; [|done].
  destruct (py_eq_str v hourId) eqn:E.
  - intros [= <-]. apply py_eq_str_true in E as ->. split; [left|done].
  - intros [Hin Hhit]%IH. split; [by right|done].
Qed.

Lemma search_loop_raises hours hourId e :
  SmartschoolHours.search_loop hours hourId = Raise e →
  e = AttributeError "hourID" ∨ e = ValueError ("Couldn't find " +:+ hourId).
Proof.
  induction hours as [|h hours IH]; simpl.
  - intros [= <-]. by right.
  - unfold getattr. destruct (rec_attrs h !! "hourID") as [v|]; simpl.
    + destruct (py_eq_str v hourId); [done|apply IH].
    + intros [= <-]. by left.
Qed.

Lemma search_loop_missing_attribute pre hour post hourId :
  Forall has_hourID pre →
  Forall (λ h, ¬ hourID_is hourId h) pre →
  ¬ has_hourID hour →
  SmartschoolHours.search_loop (pre ++ hour :: post) hourId
  = Raise (AttributeError "hourID").
Proof.
  intros Hattr Hne Hmiss. induction pre as [|h pre IH]; simpl.
  - unfold getattr. destruct (rec_attrs hour !! "hourID") as [v|] eqn:Hv; [|done].
    destruct Hmiss. by exists v.
  - inversion Hattr as [|? ? [v Hv] Hattr']; subst.
    inversion Hne as [|? ? Hh Hne']; subst.
    unfold getattr. rewrite Hv. simpl.
    destruct (py_eq_str v hourId) eqn:E.
    + apply py_eq_str_true in E as ->. by destruct Hh.
    + by apply IH.
Qed.

(** Whatever [search_by_hourId] returns is one of the records that [_xml]
    returned, and its [hourID] is the requested id; no assumption on the
    records is needed. *)
Theorem search_by_hourId_sound
    (date : Type) (_xml : option date → M (list TypedRecord))
    (hourId : string) (date_to_use : option date)
    (w w' : World) (hour : TypedRecord) :
  SmartschoolHours.search_by_hourId date _xml hourId date_to_use w = (Ok hour, w') →
  ∃ hours, _xml date_to_use w = (Ok hours, w') ∧
    hour ∈ hours ∧ hourID_is hourId hour.
Proof.
  unfold SmartschoolHours.search_by_hourId, mbind, M_bind, lift.
  destruct (_xml date_to_use w) as [[hours|e] w1]; [|done].
  destruct (SmartschoolHours.search_loop hours hourId) as [h|e] eqn:E; [|done].
  intros [= <- <-]. exists hours. split; [done|]. by apply search_loop_sound.
Qed.

(** [search_by_hourId] changes the world exactly as its call of [_xml]
    does; an error of [_xml] reaches the caller as it is; and the only
    other errors are [AttributeError] for [hourID] and the [ValueError] of
    the failed search. *)
Theorem search_by_hourId_effect_and_errors
    (date : Type) (_xml : option date → M (list TypedRecord))
    (hourId : string) (date_to_use : option date) (w : World) :
  (SmartschoolHours.search_by_hourId date _xml hourId date_to_use w).2
  = (_xml date_to_use w).2 ∧
  (∀ e, (_xml date_to_use w).1 = Raise e →
     (SmartschoolHours.search_by_hourId date _xml hourId date_to_use w).1 = Raise e) ∧
  (∀ e, (SmartschoolHours.search_by_hourId date _xml hourId date_to_use w).1 = Raise e →
     (_xml date_to_use w).1 = Raise e ∨
     e = AttributeError "hourID" ∨
     e = ValueError ("Couldn't find " +:+ hourId)).
Proof.
  unfold SmartschoolHours.search_by_hourId, mbind, M_bind, lift.
  destruct (_xml date_to_use w) as [[hours|e0] w1]; cbn [fst snd].
  - split_and!; [done..|]. intros e He. right. by eapply search_loop_raises.
  - split_and!; [done|by intros e [= ->]|]. intros e [= ->]. by left.
Qed.

(** A record without an [hourID] attribute is not skipped: when it comes
    before any match, the search raises [AttributeError]. *)
Theorem search_by_hourId_missing_attribute
    (date : Type) (_xml : option date → M (list TypedRecord))
    (hourId : string) (date_to_use : option date)
    (w w' : World) (pre post : list TypedRecord) (hour : TypedRecord) :
  _xml date_to_use w = (Ok (pre ++ hour :: post), w') →
  Forall has_hourID pre →
  Forall (λ h, ¬ hourID_is hourId h) pre →
  ¬ has_hourID hour →
  SmartschoolHours.search_by_hourId date _xml hourId date_to_use w
  = (Raise (AttributeError "hourID"), w').
Proof.
  intros Hxml Hattr Hne Hmiss.
  unfold SmartschoolHours.search_by_hourId, mbind, M_bind, lift. rewrite Hxml.
  by rewrite search_loop_missing_attribute.
Qed.

(** ** More on the adapters as a family *)

(** The action name alone tells the adapter class; and two requests are the
    same exactly when they come from the same adapter and, for the lessons
    and hours adapters, which send the time, from the same clock reading. *)
Theorem requests_identify_adapter (a b : Adapter) (w w' : World) :
  (_action a = _action b ↔ class_of a = class_of b) ∧
  (request_of a w = request_of b w' ↔
     a = b ∧ match a with
             | MomentInfos _ => True
             | Lessons | Hours => clock w = clock w'
             end).
Proof.
  split.
  - destruct a, b; split; intros Heq; vm_compute in Heq; done.
  - split.
    + destruct a as [| |[ida]], b as [| |[idb]]; unfold request_of; simpl;
        intros Heq; try (by vm_compute in Heq).
      all: injection Heq as Heq; by subst.
    + intros [<- Hclock]. destruct a; unfold request_of; simpl; by rewrite ?Hclock.
Qed.

(** ** More on the reset hook *)

Lemma World_eq w1 w2 :
  heap w1 = heap w2 → requests w1 = requests w2 → clock w1 = clock w2 → w1 = w2.
Proof. destruct w1, w2; simpl; by intros -> -> ->. Qed.

Lemma clear_each_ok classes w :
  (clear_each classes w).1 = Ok () ∧
  requests (clear_each classes w).2 = requests w ∧
  clock (clear_each classes w).2 = clock w.
Proof.
  revert w. induction classes as [|cls classes IH]; intros w; [done|].
  change (clear_each (cls :: classes) w)
    with (clear_each classes (cache_clear cls w).2).
  destruct (IH (cache_clear cls w).2) as (-> & -> & ->). done.
Qed.

(** After the loop, a heap address holds the empty [dict] if it is the
    cache of one of the classes met, and what it held before otherwise. *)
Lemma clear_each_heap classes w l :
  heap (clear_each classes w).2 !! l
  = if decide (l ∈ cache <$> classes) then Some ∅ else heap w !! l.
Proof.
  revert w. induction classes as [|cls classes IH]; intros w.
  - rewrite decide_False; [done|]. simpl. by intros ?%elem_of_nil.
  - change (clear_each (cls :: classes) w)
      with (clear_each classes (cache_clear cls w).2).
    rewrite IH. rewrite fmap_cons. simpl.
    destruct (decide (l ∈ cache <$> classes)) as [Hin|Hnin].
    + rewrite decide_True; [done|by right].
    + destruct (decide (l = cache cls)) as [->|Hne].
      * rewrite decide_True; [|by left]. apply lookup_insert_eq.
      * rewrite decide_False.
        -- by rewrite lookup_insert_ne.
        -- intros [?|?]%elem_of_cons; done.
Qed.

(** The order in which the reset loop meets the classes does not matter,
    and meeting a class more than once changes nothing. *)
Theorem clear_each_order_irrelevant (classes classes' : list AdapterClass) (w : World) :
  (∀ cls, cls ∈ classes ↔ cls ∈ classes') →
  clear_each classes w = clear_each classes' w.
Proof.
  intros Hsame.
  destruct (clear_each_ok classes w) as (Hr & Hreq & Hclock).
  destruct (clear_each_ok classes' w) as (Hr' & Hreq' & Hclock').
  rewrite (surjective_pairing (clear_each classes w)).
  rewrite (surjective_pairing (clear_each classes' w)).
  rewrite Hr, Hr'. f_equal.
  apply World_eq; [|congruence..].
  apply map_eq. intros l. rewrite !clear_each_heap.
  assert (l ∈ cache <$> classes ↔ l ∈ cache <$> classes') as Hiff.
  { rewrite !list_elem_of_fmap. split; intros (cls & -> & Hin); exists cls;
      (split; [done|by apply Hsame]). }
  destruct (decide (l ∈ cache <$> classes)) as [Hin|Hnin].
  - rewrite decide_True; [done|by apply Hiff].
  - rewrite decide_False; [done|]. intros Hin'. by apply Hnin, Hiff.
Qed.

(** The reset hook never raises, posts nothing and leaves the clock; on the
    heap it empties the three caches and touches no other object; and
    running it a second time changes nothing more. *)
Theorem clear_caches_only_empties_caches (w : World) :
  let w' := (_clear_caches_from_agenda w).2 in
  (_clear_caches_from_agenda w).1 = Ok () ∧
  requests w' = requests w ∧
  clock w' = clock w ∧
  (∀ l, (∀ cls, l ≠ cache cls) → heap w' !! l = heap w !! l) ∧
  (_clear_caches_from_agenda w').2 = w'.
Proof.
  intros w'. unfold w', _clear_caches_from_agenda.
  destruct (clear_each_ok agenda_classes w) as (Hr & Hreq & Hclock).
  split_and!; [done..| |].
  - intros l Hl. rewrite clear_each_heap. rewrite decide_False; [done|].
    intros (cls & -> & _)%list_elem_of_fmap. by apply (Hl cls).
  - destruct (clear_each_ok agenda_classes (clear_each agenda_classes w).2)
      as (_ & Hreq2 & Hclock2).
    apply World_eq; [|done..].
    apply map_eq. intros l. rewrite !clear_each_heap.
    by destruct (decide (l ∈ cache <$> agenda_classes)).
Qed.

(** Under the fixture a test hands on its own outcome, returned value or
    exception, and leaves every class cache empty either way, so that the
    next test starts from empty caches; what the test posted stays posted. *)
Theorem clear_caches_fixture_isolates {A : Type} (test : M A) (w : World) :
  (clear_caches_fixture test w).1 = (test w).1 ∧
  (∀ cls k, cache_contents cls (clear_caches_fixture test w).2 !! k = None) ∧
  requests (clear_caches_fixture test w).2 = requests (test w).2 ∧
  clock (clear_caches_fixture test w).2 = clock (test w).2.
Proof.
  unfold clear_caches_fixture, try_finally.
  destruct (test w) as [r w1]. cbn [fst snd].
  destruct (clear_each_ok agenda_classes w1) as (Hr & Hreq & Hclock).
  destruct (clear_caches_world w1) as (Hempty & _).
  unfold _clear_caches_from_agenda in *.
  destruct (clear_each agenda_classes w1) as [[[]|e] w2]; [|done].
  cbn [fst snd] in *. split_and!; [done| |done..].
  intros cls k. by rewrite Hempty.
Qed.

(** ** Reading the posted command *)

Lemma strip_prefix_spec p s r : strip_prefix p s = Some r ↔ s = p +:+ r.
Proof.
  revert s. induction p as [|a p IH]; intros s; simpl.
  - rewrite append_nil. split; [by intros [= ->]|by intros ->].
  - destruct s as [|b s]; [done|].
    rewrite append_cons. destruct (Ascii.eqb_spec a b) as [->|Hne].
    + rewrite IH. split; [by intros ->|by intros [= ->]].
    + split; [done|]. intros [= ? _]. by destruct Hne.
Qed.

Lemma lazy_group_unfold close s :
  lazy_group close s
  = match strip_prefix close s with
    | Some _ => Some ""
    | None =>
        match s with
        | "" => None
        | String c s' => if re_dot c then String c <$> lazy_group close s' else None
        end
    end.
Proof. by destruct s. Qed.

Lemma re_search_group_unfold open close s :
  re_search_group open close s
  = match match_here open close s with
    | Some g => Some g
    | None =>
        match s with
        | "" => None
        | String _ s' => re_search_group open close s'
        end
    end.
Proof. by destruct s. Qed.

Lemma append_eq_cons (a b : string) c s :
  a +:+ b = String c s →
  (a = "" ∧ b = String c s) ∨ ∃ a', a = String c a' ∧ a' +:+ b = s.
Proof.
  destruct a as [|x a]; [by left|].
  rewrite append_cons. intros [= -> <-]. right. by eexists.
Qed.

(** What [lazy_group] returns is followed by [close], holds no line feed,
    and is the shortest such run: [close] starts nowhere inside it. *)
Lemma lazy_group_sound close s g :
  lazy_group close s = Some g →
  ∃ post, s = g +:+ close +:+ post ∧
    string_forall re_dot g = true ∧
    ∀ g1 g2, g = g1 +:+ g2 → g2 ≠ "" →
      strip_prefix close (g2 +:+ close +:+ post) = None.
Proof.
  revert g. induction s as [|c s IH]; intros g; rewrite lazy_group_unfold.
  - destruct (strip_prefix close "") as [r|] eqn:E; [|done].
    intros [= <-]. apply strip_prefix_spec in E. exists r.
    split_and!; [done..|]. intros g1 g2 Hg. by destruct g1, g2.
  - destruct (strip_prefix close (String c s)) as [r|] eqn:E.
    + intros [= <-]. apply strip_prefix_spec in E. exists r.
      split_and!; [done..|]. intros g1 g2 Hg. by destruct g1, g2.
    + destruct (re_dot c) eqn:Ec; [|done].
      destruct (lazy_group close s) as [g'|] eqn:Eg; [|done].
      intros [= <-]. destruct (IH g' eq_refl) as (post & -> & Hdot & Hshort).
      exists post. split_and!; [done|by simpl; rewrite Ec|].
      intros g1 g2 Hg Hne. symmetry in Hg.
      apply append_eq_cons in Hg as [[-> ->]|(g1' & -> & Hg)].
      * by rewrite append_cons.
      * by apply (Hshort g1').
Qed.

Lemma lazy_group_complete close g post :
  string_forall re_dot g = true →
  (∀ g1 g2, g = g1 +:+ g2 → g2 ≠ "" →
     strip_prefix close (g2 +:+ close +:+ post) = None) →
  lazy_group close (g +:+ close +:+ post) = Some g.
Proof.
  induction g as [|c g IH]; intros Hdot Hshort; rewrite lazy_group_unfold.
  - rewrite append_nil.
    by rewrite (proj2 (strip_prefix_spec close (close +:+ post) post) eq_refl).
  - rewrite (Hshort "" (String c g)) by done.
    rewrite append_cons. simpl in Hdot. apply andb_true_iff in Hdot as [-> Hdot].
    rewrite IH; [done..|]. intros g1 g2 -> Hne.
    by apply (Hshort (String c g1)).
Qed.

(** A run that holds neither a line feed nor the first character of
    [close] is what [lazy_group] returns when [close] follows it. *)
Lemma lazy_group_plain c0 close' g post :
  string_forall (λ c, re_dot c && negb (Ascii.eqb c0 c)) g = true →
  lazy_group (String c0 close') (g +:+ String c0 close' +:+ post) = Some g.
Proof.
  intros Hplain. apply lazy_group_complete.
  - clear post. induction g as [|c g IH]; simpl in *; [done|].
    apply andb_true_iff in Hplain as [[-> _]%andb_true_iff Hg]. by apply IH.
  - intros g1 g2 -> Hne. induction g1 as [|c g1 IH].
    + rewrite append_nil in Hplain. destruct g2 as [|c g2]; [done|].
      simpl in Hplain. apply andb_true_iff in Hplain as [[_ Hc]%andb_true_iff _].
      apply negb_true_iff in Hc. rewrite append_cons. simpl. by rewrite Hc.
    + rewrite append_cons in Hplain. simpl in Hplain.
      apply andb_true_iff in Hplain as [_ Hg]. by apply IH.
Qed.

Lemma match_here_sound open close s g :
  match_here open close s = Some g →
  ∃ post, s = open +:+ g +:+ close +:+ post ∧
    string_forall re_dot g = true ∧
    ∀ g1 g2, g = g1 +:+ g2 → g2 ≠ "" →
      strip_prefix close (g2 +:+ close +:+ post) = None.
Proof.
  unfold match_here. destruct (strip_prefix open s) as [rest|] eqn:E; [|done].
  simpl. intros (post & -> & Hdot & Hshort)%lazy_group_sound.
  apply strip_prefix_spec in E. by exists post.
Qed.

Lemma re_search_group_sound open close s g :
  re_search_group open close s = Some g →
  ∃ pre post, s = pre +:+ open +:+ g +:+ close +:+ post ∧
    string_forall re_dot g = true ∧
    ∀ g1 g2, g = g1 +:+ g2 → g2 ≠ "" →
      strip_prefix close (g2 +:+ close +:+ post) = None.
Proof.
  induction s as [|c s IH]; rewrite re_search_group_unfold.
  - destruct (match_here open close "") as [g'|] eqn:E; [|done].
    intros [= ->]. apply match_here_sound in E as (post & E & ?). by exists "", post.
  - destruct (match_here open close (String c s)) as [g'|] eqn:E.
    + intros [= ->]. apply match_here_sound in E as (post & E & ?). by exists "", post.
    + intros (pre & post & -> & ?)%IH. by exists (String c pre), post.
Qed.

Lemma re_search_group_skip open close pre rest :
  starts_nowhere open pre rest = true →
  re_search_group open close (pre +:+ rest) = re_search_group open close rest.
Proof.
  induction pre as [|c pre IH]; [done|]. intros Hpre.
  change (starts_nowhere open (String c pre) rest)
    with (match strip_prefix open (String c pre +:+ rest) with
          | Some _ => false
          | None => starts_nowhere open pre rest
          end) in Hpre.
  rewrite re_search_group_unfold. unfold match_here.
  destruct (strip_prefix open (String c pre +:+ rest)) as [r|]; [done|].
  simpl. by apply IH.
Qed.

Lemma re_search_group_complete open c0 close' pre g post :
  starts_nowhere open pre (open +:+ g +:+ String c0 close' +:+ post) = true →
  string_forall (λ c, re_dot c && negb (Ascii.eqb c0 c)) g = true →
  re_search_group open (String c0 close') (pre +:+ open +:+ g +:+ String c0 close' +:+ post)
  = Some g.
Proof.
  intros Hpre Hplain. rewrite re_search_group_skip by done.
  rewrite re_search_group_unfold. unfold match_here.
  rewrite (proj2 (strip_prefix_spec open _ _) eq_refl). simpl.
  by rewrite lazy_group_plain.
Qed.

(** What the fixture reads as subsystem and as action stands in the command
    between the opening and the closing tag, holds no line feed and stops at
    the first closing tag; and when a search finds nothing, the fixture
    fails with [AttributeError]. *)
Theorem command_tags_sound (xml : string) :
  (∀ subsystem, command_subsystem xml = Ok subsystem →
     ∃ pre post, xml = pre +:+ "<subsystem>" +:+ subsystem +:+ "</subsystem>" +:+ post ∧
       string_forall re_dot subsystem = true ∧
       ∀ g1 g2, subsystem = g1 +:+ g2 → g2 ≠ "" →
         strip_prefix "</subsystem>" (g2 +:+ "</subsystem>" +:+ post) = None) ∧
  (∀ action, command_action xml = Ok action →
     ∃ pre post, xml = pre +:+ "<action>" +:+ action +:+ "</action>" +:+ post ∧
       string_forall re_dot action = true ∧
       ∀ g1 g2, action = g1 +:+ g2 → g2 ≠ "" →
         strip_prefix "</action>" (g2 +:+ "</action>" +:+ post) = None) ∧
  (∀ e, command_subsystem xml = Raise e ∨ command_action xml = Raise e →
     e = AttributeError "group").
Proof.
  unfold command_subsystem, command_action, group1. split_and!.
  - intros subsystem.
    destruct (re_search_group _ _ xml) as [g|] eqn:E; [|done].
    intros [= <-]. by apply re_search_group_sound.
  - intros action.
    destruct (re_search_group "<action>" _ xml) as [g|] eqn:E; [|done].
    intros [= <-]. by apply re_search_group_sound.
  - intros e [He|He].
    + destruct (re_search_group "<subsystem>" _ xml); [done|]. by injection He.
    + destruct (re_search_group "<action>" _ xml); [done|]. by injection He.
Qed.

(** When the opening tag starts nowhere before, and the text between the
    tags holds neither a line feed nor [<], the fixture reads exactly that
    text, whatever follows the closing tag. *)
Theorem command_tags_complete (pre text post : string) :
  string_forall (λ c, re_dot c && negb (Ascii.eqb "<" c)) text = true →
  (starts_nowhere "<subsystem>" pre ("<subsystem>" +:+ text +:+ "</subsystem>" +:+ post) = true →
   command_subsystem (pre +:+ "<subsystem>" +:+ text +:+ "</subsystem>" +:+ post) = Ok text) ∧
  (starts_nowhere "<action>" pre ("<action>" +:+ text +:+ "</action>" +:+ post) = true →
   command_action (pre +:+ "<action>" +:+ text +:+ "</action>" +:+ post) = Ok text).
Proof.
  intros Hplain. unfold command_subsystem, command_action. split; intros Hpre.
  - by rewrite (re_search_group_complete "<subsystem>" "<" "/subsystem>").
  - by rewrite (re_search_group_complete "<action>" "<" "/action>").
Qed.

(** ** The further properties at work *)

Lemma init_moment_id_is_trimmed_witness :
  starts_with_space "12345" = false ∧ ends_with_space "12345" = false.
Proof.
  destruct (init_moment_id_is_trimmed (λ _, Ok "") (PStr "  12345 ")
              {| SmartschoolMomentInfos._moment_id := "12345" |}) as (_ & Hs & He);
    [reflexivity|].
  exact (conj Hs He).
Defined.

Lemma init_from_own_moment_id_witness :
  SmartschoolMomentInfos.__init__ (λ _, Ok "") (PStr "12345")
  = Ok {| SmartschoolMomentInfos._moment_id := "12345" |}.
Proof.
  apply (init_from_own_moment_id (λ _, Ok "") (λ _, Ok "") (PInt 12345)
           {| SmartschoolMomentInfos._moment_id := "12345" |}).
  reflexivity.
Defined.

Lemma init_trims_only_the_ends_witness :
  ∃ pre post, Ok "  12 345 " = Ok (A := string) (pre +:+ "12 345" +:+ post) ∧
    whitespace_only pre = true ∧ whitespace_only post = true.
Proof.
  apply (init_trims_only_the_ends (λ _, Ok "") (PStr "  12 345 ")
           {| SmartschoolMomentInfos._moment_id := "12 345" |}).
  reflexivity.
Defined.

Lemma init_stores_stripped_string_form_witness :
  (SmartschoolMomentInfos.__init__ (λ _, Ok "") (PStr " 12345 ")
   = Ok {| SmartschoolMomentInfos._moment_id := "12345" |} ∧
   params_get (SmartschoolMomentInfos._params {| SmartschoolMomentInfos._moment_id := "12345" |})
     "momentID" = Some (PStr "12345")) ∧
  SmartschoolMomentInfos.__init__ (λ _, Ok "") (PInt 12345)
  = Ok {| SmartschoolMomentInfos._moment_id := "12345" |}.
Proof.
  split.
  - destruct (init_stores_stripped_string_form (λ _, Ok "") (PStr " 12345 ") " 12345 ")
      as (pre & m & post & _ & _ & _ & _ & _ & _ & Hinit & Hparams & Honly);
      [reflexivity|reflexivity|].
    rewrite <- (Honly " " "12345" " ") in Hinit, Hparams by reflexivity.
    exact (conj Hinit Hparams).
  - destruct (init_stores_stripped_string_form (λ _, Ok "") (PInt 12345) "12345")
      as (pre & m & post & _ & _ & _ & _ & _ & _ & Hinit & _ & Honly);
      [vm_compute; reflexivity|reflexivity|].
    by rewrite <- (Honly "" "12345" "") in Hinit by reflexivity.
Defined.

Example init_accepts_the_integer_12345 :
  SmartschoolMomentInfos.__init__ (λ _, Ok "") (PInt 12345)
  = Ok {| SmartschoolMomentInfos._moment_id := "12345" |}.
Proof. vm_compute. reflexivity. Qed.

Example init_strips_padded_string :
  SmartschoolMomentInfos.__init__ (λ _, Ok "") (PStr " 12345 ")
  = Ok {| SmartschoolMomentInfos._moment_id := "12345" |}.
Proof. reflexivity. Qed.

Example init_refuses_an_integer_of_4301_digits :
  SmartschoolMomentInfos.__init__ (λ _, Ok "") (PInt (10 ^ 4300))
  = Raise (ValueError int_max_str_digits_error).
Proof. vm_compute. reflexivity. Qed.

Example init_accepts_an_integer_of_4300_digits :
  ∃ self, SmartschoolMomentInfos.__init__ (λ _, Ok "") (PInt (10 ^ 4300 - 1)) = Ok self.
Proof. eexists. vm_compute. reflexivity. Qed.

Lemma init_on_int_bool_and_none_witness :
  SmartschoolMomentInfos.__init__ (λ _, Ok "") (PInt (-12345))
  = Ok {| SmartschoolMomentInfos._moment_id := "-12345" |} ∧
  SmartschoolMomentInfos.__init__ (λ _, Ok "") (PInt (10 ^ 4300))
  = Raise (ValueError int_max_str_digits_error).
Proof.
  split.
  - apply (proj1 (init_on_int_bool_and_none (λ _, Ok "") (-12345) true)).
    apply Nat.ltb_ge. vm_compute. reflexivity.
  - destruct (init_on_int_bool_and_none (λ _, Ok "") (10 ^ 4300) true) as (_ & Hover & _).
    apply Hover. apply Nat.ltb_lt. vm_compute. reflexivity.
Defined.

Lemma post_process_element_frame_witness :
  (<["assignments" := PList [PDict {[ "title" := PStr "Toets 3" ]}]]> example_element)
    !! "className"
  = example_element !! "className".
Proof.
  destruct (post_process_element_frame example_element
              (<["assignments" := PList [PDict {[ "title" := PStr "Toets 3" ]}]]>
                 example_element)) as [Hkeep _]; [reflexivity|].
  apply Hkeep. discriminate.
Defined.

Lemma post_process_element_twice_witness :
  SmartschoolMomentInfos._post_process_element
    (<["assignments" := PList [PDict {[ "title" := PStr "Toets 3" ]}]]> example_element)
  = Raise TypeError.
Proof.
  apply (post_process_element_twice example_element). reflexivity.
Defined.

Lemma post_process_element_errors_witness :
  SmartschoolMomentInfos._post_process_element {[ "assignments" := PStr "two" ]}
  = Raise TypeError.
Proof.
  destruct (post_process_element_errors {[ "assignments" := PStr "two" ]})
    as (_ & _ & Htype & _).
  apply (Htype (PStr "two")); [reflexivity|discriminate|discriminate].
Defined.

(** An [_xml] that returns one record without an [hourID], then an hour. *)
Lemma search_by_hourId_missing_attribute_witness :
  SmartschoolHours.search_by_hourId string
    (λ _ w, (Ok [ {| rec_type := AgendaHour; rec_attrs := ∅ |}; example_hour ], w))
    "318" None example_world
  = (Raise (AttributeError "hourID"), example_world).
Proof.
  apply (search_by_hourId_missing_attribute string _ "318" None example_world
           example_world [] [example_hour] {| rec_type := AgendaHour; rec_attrs := ∅ |}).
  - reflexivity.
  - constructor.
  - constructor.
  - intros [v Hv]. discriminate Hv.
Defined.

Lemma requests_identify_adapter_witness :
  request_of Lessons example_world ≠ request_of Lessons (set_clock 1700045400 example_world).
Proof.
  intros Heq.
  destruct (requests_identify_adapter Lessons Lessons example_world
              (set_clock 1700045400 example_world)) as [_ [Hsame _]].
  destruct (Hsame Heq) as [_ Hclock]. discriminate Hclock.
Defined.

Lemma clear_each_order_irrelevant_witness :
  clear_each [HoursClass; MomentInfosClass; HoursClass; LessonsClass] example_world_fetched
  = _clear_caches_from_agenda example_world_fetched.
Proof.
  apply (clear_each_order_irrelevant
           [HoursClass; MomentInfosClass; HoursClass; LessonsClass] agenda_classes).
  intros cls. split; intros _; destruct cls; unfold agenda_classes;
    repeat (first [apply list_elem_of_here | apply list_elem_of_further]).
Defined.

Lemma clear_caches_only_empties_caches_witness :
  heap (_clear_caches_from_agenda example_world_fetched).2 !! 7
  = heap example_world_fetched !! 7.
Proof.
  destruct (clear_caches_only_empties_caches example_world_fetched)
    as (_ & _ & _ & Hframe & _).
  apply Hframe. intros cls. destruct cls; vm_compute; discriminate.
Defined.

Lemma command_tags_sound_witness :
  ∃ pre post,
    "<command><subsystem>grid</subsystem><action>get hours</action></command>"
    = pre +:+ "<action>" +:+ "get hours" +:+ "</action>" +:+ post.
Proof.
  destruct (command_tags_sound
              "<command><subsystem>grid</subsystem><action>get hours</action></command>")
    as (_ & Haction & _).
  destruct (Haction "get hours") as (pre & post & Hsplit & _); [reflexivity|].
  by exists pre, post.
Defined.

Lemma command_tags_complete_witness :
  command_subsystem "<request><command><subsystem>grid</subsystem><action>get hours</action>"
  = Ok "grid".
Proof.
  destruct (command_tags_complete "<request><command>" "grid" "<action>get hours</action>")
    as [Hsubsystem _]; [reflexivity|].
  apply Hsubsystem. reflexivity.
Defined.

Section MoreExamples.

Local Existing Instance example_collaborators.

Lemma search_by_hourId_sound_witness :
  ∃ hours, _xml Hours (Some "2023-11-16") example_world = (Ok hours, example_world_fetched) ∧
    example_hour ∈ hours ∧ hourID_is "318" example_hour.
Proof.
  apply (search_by_hourId_sound string (_xml Hours) "318" (Some "2023-11-16")
           example_world example_world_fetched example_hour).
  vm_compute. reflexivity.
Defined.

Lemma search_by_hourId_effect_and_errors_witness :
  (SmartschoolHours.search_by_hourId string (_xml Lessons) "318" (Some "2023-11-16")
     example_world).1 = Raise MalformedResponse.
Proof.
  destruct (search_by_hourId_effect_and_errors string (_xml Lessons) "318"
              (Some "2023-11-16") example_world) as (_ & Hpass & _).
  apply Hpass. vm_compute. reflexivity.
Defined.

End MoreExamples.
